(** * Customer Success Copilot: health scoring, classification, alerts

    A shallow embedding of the scoring and alerting code of the repository:
    the React/TypeScript frontend (services/api.ts, AnalyticsPage.tsx,
    AlertsPage.tsx, the dashboard and actions pages), the rule-based Python
    scoring of the prototype PRD, the alert generation of the architecture
    document and the PostgreSQL schema (init-db.sql).

    Numbers.  Where the code only compares a score, a revenue or a delta
    with constants, the JavaScript [number] or Python [float] is modelled
    as an exact rational ([Q]): a decimal literal such as [0.3] denotes the
    rational 3/10 and comparisons are the order of the rationals.  Where
    the result depends on how binary floating point rounds (the penalties
    the prototype subtracts, the percentage [formatPercentage] rounds, a
    trend without a number), the number is a binary64 [float] with the
    IEEE 754 operations, NaN and the infinities, and a decimal literal
    denotes the nearest binary64 number.  Counts and day numbers are
    integers ([Z]).  A [DECIMAL(3,2)] column holds an integer number of
    hundredths.  Strings are [string]; [toLowerCase] acts on the ASCII
    letters. *)

From Stdlib Require Import QArith Qabs Qround Lqa ZArith Lia Bool List Ascii String.
From Stdlib Require Import Sorted Permutation.
From Stdlib Require Floats.
From stdpp Require Import gmap strings list pretty sorting.

#[local] Set Warnings "-inexact-float".

Import ListNotations.
Local Open Scope string_scope.

(* ===================================================================== *)
(** ** Numbers: the comparison operators as boolean tests                 *)
(* ===================================================================== *)

Module Num.

(** [a >= b], [a < b] and [a > b] on numbers. *)
Definition geb (a b : Q) : bool := Qle_bool b a.
Definition ltb (a b : Q) : bool := negb (Qle_bool b a).
Definition gtb (a b : Q) : bool := negb (Qle_bool a b).

End Num.

(* ===================================================================== *)
(** ** Strings: the JavaScript string methods the pages use               *)
(* ===================================================================== *)

Module Js.

(** [c.toLowerCase()] on one ASCII character. *)
Definition lower_ascii (c : ascii) : ascii :=
  let n := nat_of_ascii c in
  if (65 <=? n)%nat && (n <=? 90)%nat then ascii_of_nat (n + 32) else c.

(** [s.toLowerCase()] on a text of ASCII characters: the letters A to Z
    change and nothing else.  Beyond ASCII the method follows Unicode,
    which this function does not ([JsAscii] delimits the texts). *)
Fixpoint toLowerCase (s : string) : string :=
  match s with
  | EmptyString => EmptyString
  | String c s' => String (lower_ascii c) (toLowerCase s')
  end.

(** [s.includes(sub)]: [sub] occurs in [s] at some position. *)
Fixpoint includes (s sub : string) : bool :=
  String.prefix sub s ||
  match s with
  | EmptyString => false
  | String _ s' => includes s' sub
  end.

(** [a === b] on strings. *)
Definition str_eq (a b : string) : bool := String.eqb a b.

End Js.

(* ===================================================================== *)
(** ** services/api.ts: the data contract and the colour helpers          *)
(* ===================================================================== *)

Module Api.

Record Customer := mkCustomer {
  id : Z;
  name : string;
  mrr : Q;
  usage_score : Q;
  support_tickets : Z;
  last_login_days : Z;
  contract_date : string;
  health_score : Q;
  customer_type : option string;
  payment_status : option string;
  engagement_score : option Q;
  onboarding_completed : option bool;
  nps_score : option Q;
  customer_label : option string
}.

(** [Alert]: the interface declares [severity] as
    ['critical' | 'medium' | 'low']; at run time the field is the string the
    JSON response carries. *)
Record Alert := mkAlert {
  customer_id : Z;
  customer_name : string;
  type : string;
  severity : string;
  message : string;
  actions : list string;
  created_at : string
}.

(** The values the [severity] annotation of [Alert] lists. *)
Definition Alert_severity : list string := ["critical"; "medium"; "low"].

(** [HealthTrend.trend]. *)
Inductive Trend := improving | declining | stable.

Record HealthTrend := mkHealthTrend {
  trend : Trend;
  change_30d : Q;
  forecast_30d : Q;
  confidence : Q
}.

(** The three pictographs [getTrendIcon] returns. *)
Inductive Icon := chart_increasing | chart_decreasing | right_arrow.

(** [getTrendIcon]; the [default] branch of the switch repeats the arrow
    of [stable]. *)
Definition getTrendIcon (t : Trend) : Icon :=
  match t with
  | improving => chart_increasing
  | declining => chart_decreasing
  | stable => right_arrow
  end.

(** [ActionRecommendation.urgency]. *)
Definition ActionRecommendation_urgency : list string :=
  ["immediate"; "within_24h"; "within_week"].

Definition getHealthColor (score : Q) : string :=
  if Num.geb score 0.8 then "#4caf50"
  else if Num.geb score 0.6 then "#ff9800"
  else if Num.geb score 0.3 then "#f44336"
  else "#d32f2f".

Definition getSeverityColor (severity : string) : string :=
  if Js.str_eq severity "critical" then "#f44336"
  else if Js.str_eq severity "medium" then "#ff9800"
  else if Js.str_eq severity "low" then "#4caf50"
  else "#757575".

Definition getUrgencyColor (urgency : string) : string :=
  if Js.str_eq urgency "immediate" then "#f44336"
  else if Js.str_eq urgency "within_24h" then "#ff9800"
  else if Js.str_eq urgency "within_week" then "#2196f3"
  else "#757575".

End Api.

(* ===================================================================== *)
(** ** pages/AnalyticsPage.tsx: the customer list and its risk classifier *)
(* ===================================================================== *)

Module CustomerList.

Record RiskLevel := mkRiskLevel { label : string; color : string }.

(** [getRiskLevel] of the Ant Design customer list. *)
Definition getRiskLevel (score : Q) : RiskLevel :=
  if Num.geb score 0.8 then mkRiskLevel "Excellent" "green"
  else if Num.geb score 0.6 then mkRiskLevel "Good" "blue"
  else if Num.geb score 0.3 then mkRiskLevel "At Risk" "orange"
  else mkRiskLevel "Critical" "red".

(** [getRiskLevel] of the Material UI customer list: the same bands, other
    colour names. *)
Definition getRiskLevel_mui (score : Q) : RiskLevel :=
  if Num.geb score 0.8 then mkRiskLevel "Excellent" "success"
  else if Num.geb score 0.6 then mkRiskLevel "Good" "info"
  else if Num.geb score 0.3 then mkRiskLevel "At Risk" "warning"
  else mkRiskLevel "Critical" "error".

(** [getRiskLevel] of the first customer list (three levels). *)
Definition getRiskLevel_three (score : Q) : string :=
  if Num.ltb score 0.3 then "Critical"
  else if Num.ltb score 0.6 then "Medium"
  else "Healthy".

End CustomerList.

(* ===================================================================== *)
(** ** Array methods                                                      *)
(* ===================================================================== *)

Module JsArray.

Section Sort.
Context {A : Type}.
(** The comparator handed to [Array.prototype.sort]: negative when its
    first argument goes first, positive when its second does. *)
Variable compareFn : A -> A -> Q.

(** [x] goes before the first element it does not compare greater than. *)
Fixpoint insert (x : A) (sorted : list A) : list A :=
  match sorted with
  | [] => [x]
  | y :: rest =>
      if Qle_bool (compareFn x y) 0 then x :: y :: rest
      else y :: insert x rest
  end.

(** [arr.sort(compareFn)]: the sort is stable (ECMAScript 2019), so for a
    consistent comparator its result is the one of this stable insertion
    sort: elements that compare equal keep their order. *)
Definition sort (arr : list A) : list A := foldr insert [] arr.
End Sort.

(** [arr.slice(0, n)]. *)
Definition slice0 {A : Type} (n : nat) (arr : list A) : list A := take n arr.

End JsArray.

(* ===================================================================== *)
(** ** The dashboard page: distribution chart and high-risk panel         *)
(* ===================================================================== *)

Module Dashboard.
Import Api.

(** The four filters of [healthDistribution], in the order of the chart. *)
Definition band_excellent (c : Customer) : bool := Num.geb (health_score c) 0.8.
Definition band_good (c : Customer) : bool :=
  Num.geb (health_score c) 0.6 && Num.ltb (health_score c) 0.8.
Definition band_at_risk (c : Customer) : bool :=
  Num.geb (health_score c) 0.3 && Num.ltb (health_score c) 0.6.
Definition band_critical (c : Customer) : bool := Num.ltb (health_score c) 0.3.

Definition bands : list (string * (Customer -> bool)) :=
  [ ("Excellent (80-100%)", band_excellent);
    ("Good (60-80%)", band_good);
    ("At Risk (30-60%)", band_at_risk);
    ("Critical (<30%)", band_critical) ].

(** [customers?.filter(p).length || 0]: zero while the query has no data. *)
Definition count_or_0 (customers : option (list Customer)) (p : Customer -> bool) : nat :=
  match customers with
  | Some cs => length (List.filter p cs)
  | None => 0%nat
  end.

Definition healthDistribution (customers : option (list Customer)) : list (string * nat) :=
  map (fun b => (fst b, count_or_0 customers (snd b))) bands.

(** [AtRiskCustomers]: the list the panel renders.  [sort] works in place
    on the fresh array [filter] returned, so the prop is left untouched. *)
Definition criticalCustomers (customers : list Customer) : list Customer :=
  JsArray.slice0 5
    (JsArray.sort (fun a b => health_score a - health_score b)%Q
       (List.filter (fun c => Num.ltb (health_score c) 0.3) customers)).

(** The colour table of [SeverityTag]. *)
Definition SeverityTag_colors : gmap string string :=
  <["critical" := "red"]> (<["high" := "orange"]>
    (<["medium" := "yellow"]> (<["low" := "green"]> ∅))).

End Dashboard.

(* ===================================================================== *)
(** ** pages/AlertsPage.tsx: search, filters and the severity sorter      *)
(* ===================================================================== *)

Module AlertsPage.
Import Api.

Section Filter.
(** The component state. *)
Variables searchText filterSeverity filterType : string.

Definition matchesSearch (alert : Alert) : bool :=
  Js.includes (Js.toLowerCase (customer_name alert)) (Js.toLowerCase searchText)
  || Js.includes (Js.toLowerCase (message alert)) (Js.toLowerCase searchText)
  || Js.includes (Js.toLowerCase (type alert)) (Js.toLowerCase searchText).

Definition matchesSeverity (alert : Alert) : bool :=
  Js.str_eq filterSeverity "all" || Js.str_eq (severity alert) filterSeverity.

Definition matchesType (alert : Alert) : bool :=
  Js.str_eq filterType "all" || Js.str_eq (type alert) filterType.

(** [alerts?.filter(...)]: [undefined] while the query has no data. *)
Definition filteredAlerts (alerts : option (list Alert)) : option (list Alert) :=
  option_map
    (List.filter (fun alert =>
       matchesSearch alert && matchesSeverity alert && matchesType alert))
    alerts.
End Filter.

(** [const order = { critical: 3, medium: 2, low: 1 }]. *)
Definition order : gmap string Z :=
  <["critical" := 3%Z]> (<["medium" := 2%Z]> (<["low" := 1%Z]> ∅)).

(** The sorter of the severity column.  A severity that is no key of
    [order] reads [undefined], and the difference is then NaN: [None]. *)
Definition sorter (a b : Alert) : option Z :=
  match order !! severity a, order !! severity b with
  | Some x, Some y => Some (x - y)%Z
  | _, _ => None
  end.

End AlertsPage.

(* ===================================================================== *)
(** ** The actions page: urgency and category filters                     *)
(* ===================================================================== *)

Module ActionsPage.

(** The fields of an action the page and [ActionCard] read. *)
Record Action := mkAction {
  id : string;
  title : string;
  description : string;
  category : string;
  urgency : string;
  effort : string;
  timeline : string;
  success_rate : Q;
  business_impact : string
}.

Section Filter.
Variables selectedUrgency selectedCategory : string.

Definition filterActions (actions : list Action) : list Action :=
  List.filter (fun action =>
    let urgencyMatch :=
      Js.str_eq selectedUrgency "all" || Js.str_eq (urgency action) selectedUrgency in
    let categoryMatch :=
      Js.str_eq selectedCategory "all" || Js.str_eq (category action) selectedCategory in
    urgencyMatch && categoryMatch) actions.
End Filter.

End ActionsPage.

(* ===================================================================== *)
(** ** The prototype PRD: rule-based health score and alert rules         *)
(* ===================================================================== *)

Module Prototype.
Import Api.
Local Open Scope Q_scope.

(** Python's [max(0, score)]. *)
Definition max0 (score : Q) : Q := if Num.gtb score 0 then score else 0.

(** The score in exact arithmetic: what the function computes up to the
    rounding of binary64, which [Prototype64] follows. *)
Definition calculate_health_score (customer : Customer) : Q :=
  let score := 1.0 in
  (* Usage penalty *)
  let score :=
    if Num.ltb (usage_score customer) 0.3 then score - 0.4
    else if Num.ltb (usage_score customer) 0.6 then score - 0.2
    else score in
  (* Support tickets penalty *)
  let score :=
    if (5 <? support_tickets customer)%Z then score - 0.3
    else if (2 <? support_tickets customer)%Z then score - 0.1
    else score in
  (* Login recency penalty *)
  let score :=
    if (30 <? last_login_days customer)%Z then score - 0.4
    else if (7 <? last_login_days customer)%Z then score - 0.2
    else score in
  max0 score.

(** The dictionaries [generate_alerts] appends. *)
Record AlertDict := mkAlertDict {
  type : string;
  severity : string;
  message : string;
  actions : list string
}.

Definition churn_risk_alert (customer : Customer) : AlertDict :=
  {| type := "churn_risk";
     severity := "critical";
     message := (name customer ++ " has very low health score")%string;
     actions := ["Schedule urgent call"; "Send retention offer"] |}.

Definition engagement_risk_alert (customer : Customer) : AlertDict :=
  {| type := "engagement_risk";
     severity := "medium";
     message := (name customer ++ " hasn't logged in for "
                 ++ pretty (last_login_days customer) ++ " days")%string;
     actions := ["Send check-in email"; "Share new feature update"] |}.

Definition generate_alerts (customer : Customer) : list AlertDict :=
  let alerts : list AlertDict := [] in
  let alerts :=
    if Num.ltb (health_score customer) 0.3
    then (alerts ++ [churn_risk_alert customer])%list else alerts in
  let alerts :=
    if (14 <? last_login_days customer)%Z
    then (alerts ++ [engagement_risk_alert customer])%list else alerts in
  alerts.

(** The severities of the alerts of one type, in the order they were
    appended. *)
Definition severities_of (ty : string) (alerts : list AlertDict) : list string :=
  map severity (List.filter (fun a => String.eqb (type a) ty) alerts).

(** A customer who last logged in 45 days ago. *)
Definition dormant_customer : Customer :=
  mkCustomer 7 "Initech" 2400 0.5 1 45 "2023-09-01" 0.4
    (Some "Growth") (Some "current") None None None None.

End Prototype.

(* ===================================================================== *)
(** ** The architecture document: alert generation from a risk score      *)
(* ===================================================================== *)

Module Architecture.

(** The exception a read of a local name raises when no branch bound it. *)
Inductive PyError := UnboundLocalError (local : string).

Record Alert {RiskFactors Actions : Type} := mkAlert {
  customer_id : string;
  severity : string;
  urgency : string;
  risk_factors : RiskFactors;
  suggested_actions : Actions
}.
Arguments Alert : clear implicits.

Section GenerateAlert.
Context {RiskFactors Actions : Type}.
(** The helper that picks the next best actions is not part of the
    document; [generate_alert] is read for any such function. *)
Variable get_next_best_actions : string -> RiskFactors -> Actions.

(** The [if]/[elif] chain: the pair of locals it binds, if any. *)
Definition severity_and_urgency (risk_score : Q) : option (string * string) :=
  if Num.gtb risk_score 0.8 then Some ("critical", "immediate")
  else if Num.gtb risk_score 0.6 then Some ("high", "within_24h")
  else if Num.gtb risk_score 0.4 then Some ("medium", "within_week")
  else None.

Definition generate_alert (customer_id : string) (risk_score : Q)
    (risk_factors : RiskFactors) : PyError + Alert RiskFactors Actions :=
  match severity_and_urgency risk_score with
  | Some (severity, urgency) =>
      inr (mkAlert _ _ customer_id severity urgency risk_factors
             (get_next_best_actions customer_id risk_factors))
  | None => inl (UnboundLocalError "severity")
  end.
End GenerateAlert.


End Architecture.

(* ===================================================================== *)
(** ** services/api.ts: recommended actions                               *)
(* ===================================================================== *)

Module ApiActions.


End ApiActions.

(* ===================================================================== *)
(** ** scripts/setup/init-db.sql: enumerations and the health score table *)
(* ===================================================================== *)

Module Schema.

(** [CREATE TYPE alert_severity AS ENUM (...)]. *)
Definition alert_severity : list string := ["low"; "medium"; "high"; "critical"].

Inductive SqlError :=
  | numeric_field_overflow
  | not_null_violation (column : string)
  | check_violation (column : string)
  | unique_violation (constraint : string).

(** Statements either fail with an error or yield a value. *)
Definition Sql (A : Type) : Type := SqlError + A.
Definition ret {A} (a : A) : Sql A := inr a.
Definition bind {A B} (m : Sql A) (k : A -> Sql B) : Sql B :=
  match m with
  | inl e => inl e
  | inr a => k a
  end.
Notation "x <- m ;; k" := (bind m (fun x => k))
  (at level 100, m at next level, right associativity).

(** A value is rounded to the scale of the column, ties away from zero. *)
Definition round_hundredths (x : Q) : Z :=
  if Num.geb x 0 then Qfloor (x * 100 + (1 # 2))%Q
  else (- Qfloor (- x * 100 + (1 # 2))%Q)%Z.

(** [DECIMAL(3,2)]: three digits, two of them after the point, kept as a
    number of hundredths; a rounded value of ten or more is refused. *)
Definition decimal_3_2 (x : Q) : Sql Z :=
  let v := round_hundredths x in
  if (Z.abs v <=? 999)%Z then ret v else inl numeric_field_overflow.

(** The seven score columns; [None] is NULL. *)
Record Scores (A : Type) := mkScores {
  overall_score : option A;
  usage_score : option A;
  engagement_score : option A;
  support_score : option A;
  financial_score : option A;
  relationship_score : option A;
  confidence_score : option A
}.
Arguments mkScores {A}.
Arguments overall_score {A}.
Arguments usage_score {A}.
Arguments engagement_score {A}.
Arguments support_score {A}.
Arguments financial_score {A}.
Arguments relationship_score {A}.
Arguments confidence_score {A}.

Definition columns {A} (s : Scores A) : list (string * option A) :=
  [ ("overall_score", overall_score s);
    ("usage_score", usage_score s);
    ("engagement_score", engagement_score s);
    ("support_score", support_score s);
    ("financial_score", financial_score s);
    ("relationship_score", relationship_score s);
    ("confidence_score", confidence_score s) ].

(** The values of an [INSERT] or of the [SET] of an [UPDATE]; defaults
    ([uuid_generate_v4()], [NOW()]) are resolved by the caller, and [None]
    is NULL: [customer_id] and [calculated_at] may be NULL, [model_version]
    may not. *)
Record Values := mkValues {
  v_id : string;
  v_customer_id : option string;
  v_scores : Scores Q;
  v_calculated_at : option Z;
  v_model_version : option string
}.

Record Row := mkRow {
  id : string;
  customer_id : option string;
  scores : Scores Z;
  calculated_at : option Z;
  model_version : string
}.

(** The rows of the table, listed in the order they were inserted.
    PostgreSQL promises no order of the rows; the list tells rows apart by
    their place and nothing is made of the order itself. *)
Definition Table : Type := list Row.

Definition cast (x : option Q) : Sql (option Z) :=
  match x with
  | None => ret None
  | Some q => h <- decimal_3_2 q ;; ret (Some h)
  end.

Definition cast_scores (s : Scores Q) : Sql (Scores Z) :=
  o <- cast (overall_score s) ;;
  u <- cast (usage_score s) ;;
  e <- cast (engagement_score s) ;;
  p <- cast (support_score s) ;;
  f <- cast (financial_score s) ;;
  r <- cast (relationship_score s) ;;
  c <- cast (confidence_score s) ;;
  ret (mkScores o u e p f r c).

(** [CHECK (col >= 0 AND col <= 1)]: a NULL satisfies the constraint. *)
Definition check_passes (h : option Z) : bool :=
  match h with
  | None => true
  | Some v => (0 <=? v)%Z && (v <=? 100)%Z
  end.

(** The [CHECK]s of the columns; when several fail, the error names the
    first failing column in the order of the table definition, a choice
    of this model: the statement fails whichever constraint is named. *)
Fixpoint check_columns (cols : list (string * option Z)) : Sql unit :=
  match cols with
  | [] => ret tt
  | (col, h) :: rest =>
      if check_passes h then check_columns rest else inl (check_violation col)
  end.

Definition checked_scores (s : Scores Q) : Sql (Scores Z) :=
  z <- cast_scores s ;;
  _ <- check_columns (columns z) ;;
  ret z.

(** [PRIMARY KEY (id)] and [UNIQUE (customer_id, calculated_at)]; a row
    with a NULL [customer_id] or a NULL [calculated_at] never collides. *)
Definition same_customer_timestamp (c : option string) (at_ : option Z) (r : Row) : bool :=
  match c, customer_id r, at_, calculated_at r with
  | Some a, Some b, Some x, Some y => String.eqb a b && (y =? x)%Z
  | _, _, _, _ => false
  end.

(** [INSERT]: the values are cast to the column types, then the NOT NULL
    and CHECK constraints are tested, then the unique indexes. *)
Definition insert (t : Table) (v : Values) : Sql Table :=
  z <- cast_scores (v_scores v) ;;
  mv <- match v_model_version v with
        | Some s => ret s
        | None => inl (not_null_violation "model_version")
        end ;;
  _ <- check_columns (columns z) ;;
  if existsb (fun r => String.eqb (id r) (v_id v)) t
  then inl (unique_violation "customer_health_scores_pkey")
  else if existsb (same_customer_timestamp (v_customer_id v) (v_calculated_at v)) t
  then inl (unique_violation "unique_customer_health_timestamp")
  else ret (t ++ [mkRow (v_id v) (v_customer_id v) z (v_calculated_at v) mv])%list.

(** [UPDATE ... SET <score columns> WHERE ...]: one failing row fails the
    statement. *)
Fixpoint update_scores (where_ : Row -> bool) (set : Row -> Scores Q) (t : Table)
    : Sql Table :=
  match t with
  | [] => ret []
  | r :: rest =>
      r' <- (if where_ r
             then z <- checked_scores (set r) ;;
                  ret (mkRow (id r) (customer_id r) z (calculated_at r) (model_version r))
             else ret r) ;;
      rest' <- update_scores where_ set rest ;;
      ret (r' :: rest')
  end.

(** The row an [UPDATE] of any columns puts in the place of [r]: the new
    values are cast and tested like the values of an [INSERT]. *)
Definition updated (set : Row -> Values) (r : Row) : Sql Row :=
  let v := set r in
  z <- cast_scores (v_scores v) ;;
  mv <- match v_model_version v with
        | Some s => ret s
        | None => inl (not_null_violation "model_version")
        end ;;
  _ <- check_columns (columns z) ;;
  ret (mkRow (v_id v) (v_customer_id v) z (v_calculated_at v) mv).

Fixpoint update_rows (where_ : Row -> bool) (set : Row -> Values) (t : Table)
    : Sql Table :=
  match t with
  | [] => ret []
  | r :: rest =>
      r' <- (if where_ r then updated set r else ret r) ;;
      rest' <- update_rows where_ set rest ;;
      ret (r' :: rest')
  end.

(** No row has the key of a row listed after it. *)
Fixpoint unique_rows (same : Row -> Row -> bool) (t : Table) : bool :=
  match t with
  | [] => true
  | r :: rest => negb (existsb (same r) rest) && unique_rows same rest
  end.

Definition same_id (r r' : Row) : bool := String.eqb (id r') (id r).

Definition same_key (r r' : Row) : bool :=
  same_customer_timestamp (customer_id r) (calculated_at r) r'.

(** [UPDATE ... SET <any columns> WHERE ...], the key columns included.
    The unique indexes are tested on the table the statement leaves;
    PostgreSQL tests them row by row while it updates, so it refuses every
    statement this test refuses, and may refuse more, depending on the
    order in which it visits the rows. *)
Definition update (where_ : Row -> bool) (set : Row -> Values) (t : Table)
    : Sql Table :=
  t' <- update_rows where_ set t ;;
  if negb (unique_rows same_id t')
  then inl (unique_violation "customer_health_scores_pkey")
  else if negb (unique_rows same_key t')
  then inl (unique_violation "unique_customer_health_timestamp")
  else ret t'.

Definition delete (where_ : Row -> bool) (t : Table) : Table :=
  List.filter (fun r => negb (where_ r)) t.

Inductive Statement :=
  | Insert (v : Values)
  | UpdateScores (where_ : Row -> bool) (set : Row -> Scores Q)
  | Update (where_ : Row -> bool) (set : Row -> Values)
  | Delete (where_ : Row -> bool).

Definition exec (t : Table) (s : Statement) : Sql Table :=
  match s with
  | Insert v => insert t v
  | UpdateScores w f => update_scores w f t
  | Update w f => update w f t
  | Delete w => ret (delete w t)
  end.

(** A session of statements, each in its own transaction: a statement that
    fails leaves the table as it was. *)
Definition run (t : Table) (ss : list Statement) : Table :=
  fold_left (fun t s => match exec t s with inr t' => t' | inl _ => t end) ss t.

(** A stored number of hundredths read back as a score. *)
Definition to_score (h : Z) : Q := (inject_Z h / 100)%Q.

(** The invariant of the table: every score that is stored (not NULL),
    read back, lies between 0 and 1. *)
Definition score_in_range (h : option Z) : Prop :=
  match h with
  | Some v => (0 <= to_score v <= 1)%Q
  | None => True
  end.

Definition row_ok (r : Row) : Prop :=
  Forall (fun col => score_in_range (snd col)) (columns (scores r)).

Definition table_ok (t : Table) : Prop := Forall row_ok t.

End Schema.

(* ===================================================================== *)
(** ** The trend analyzer                                                 *)
(* ===================================================================== *)

(** The frontend declares the shape of a trend ([Api.HealthTrend]) and
    renders it; the analyzer that computes it runs behind the API.  The
    definitions of this module follow the specification's section on the
    trend analyzer. *)
Module TrendAnalyzer.
Import Api.
Local Open Scope Q_scope.

(** Modelled from the spec: the configuration type is missing; the
    tolerance epsilon of the direction, the staleness tolerance in days and
    the number K of snapshots the forecast reads. *)
Record Config := mkConfig {
  epsilon : Q;
  staleness_tolerance : Z;
  K : nat
}.

(** Modelled from the spec: the analyzer's configuration is missing; the
    defaults are the ones the specification names (epsilon 0.02, a
    tolerance of 3 days, the last 3 snapshots for the forecast). *)
Definition default_config : Config := mkConfig 0.02 3 3.

(** Modelled from the spec: the direction rule is missing; improving if
    the change is above epsilon, declining if it is below minus epsilon,
    else stable. *)
Definition direction_of (eps change : Q) : Trend :=
  if Num.gtb change eps then improving
  else if Num.ltb change (- eps) then declining
  else stable.

End TrendAnalyzer.

(* ===================================================================== *)
(** ** Further string, number and collection methods                      *)
(* ===================================================================== *)

Module JsMore.

(** [Math.round(x)]: the nearest integer, a tie going up. *)
Definition Math_round (x : Q) : Z := Qfloor (x + (1 # 2))%Q.

(** [c.toUpperCase()] on one ASCII character. *)
Definition upper_ascii (c : ascii) : ascii :=
  let n := nat_of_ascii c in
  if (97 <=? n)%nat && (n <=? 122)%nat then ascii_of_nat (n - 32) else c.

(** [s.toUpperCase()] on a text of ASCII characters: the letters a to z
    change and nothing else. *)
Fixpoint toUpperCase (s : string) : string :=
  match s with
  | EmptyString => EmptyString
  | String c s' => String (upper_ascii c) (toUpperCase s')
  end.

(** [s.replace(pattern, replacement)] for a pattern of one character and a
    replacement without dollar signs: the first occurrence only. *)
Fixpoint replace (pattern : ascii) (replacement : string) (s : string) : string :=
  match s with
  | EmptyString => EmptyString
  | String c s' =>
      if Ascii.eqb c pattern then (replacement ++ s')%string
      else String c (replace pattern replacement s')
  end.

(** [a || ''] on an optional string. *)
Definition or_empty (a : option string) : string :=
  match a with
  | Some s => s
  | None => ""
  end.

(** [set.add(x)] on the insertion-ordered content of a [Set] of strings. *)
Definition Set_add (content : list string) (x : string) : list string :=
  if existsb (String.eqb x) content then content else (content ++ [x])%list.

(** [[...new Set(arr)]]: the distinct elements in the order of their first
    occurrence. *)
Definition spread_Set (arr : list string) : list string :=
  fold_left Set_add arr [].

(** [arr.reduce((sum, x) => sum + f(x), 0)]. *)
Definition sum_by {A : Type} (f : A -> Q) (arr : list A) : Q :=
  fold_left (fun sum x => (sum + f x)%Q) arr 0%Q.

(** What [find] and a guarded lookup hand back: [null], [undefined] or a
    value. *)
Inductive Maybe (A : Type) :=
  | null
  | undefined
  | value (a : A).
Arguments null {A}.
Arguments undefined {A}.
Arguments value {A}.

(** [arr.find(p)]. *)
Definition find {A : Type} (p : A -> bool) (arr : list A) : Maybe A :=
  match List.find p arr with
  | Some a => value a
  | None => undefined
  end.

End JsMore.

(* ===================================================================== *)
(** ** Binary64 numbers                                                   *)
(* ===================================================================== *)

Module Binary64.
Import PrimFloat SpecFloat FloatOps.

(** The exact value of a finite number; NaN and the infinities have
    none. *)
Definition to_Q (x : float) : option Q :=
  match Prim2SF x with
  | S754_zero _ => Some 0%Q
  | S754_finite s m e =>
      let n := if s then Z.neg m else Z.pos m in
      Some (if (0 <=? e)%Z then inject_Z (n * 2 ^ e) else (n # Z.to_pos (2 ^ (- e))))
  | _ => None
  end.

(** The number of an integer; exact for a magnitude of at most 2^53. *)
Definition of_Z (n : Z) : float :=
  match n with
  | Z0 => zero
  | Zpos p => SF2Prim (S754_finite false p 0)
  | Zneg p => SF2Prim (S754_finite true p 0)
  end.

End Binary64.

(** The [number] of JavaScript. *)
Module JsNumber.
Import PrimFloat SpecFloat FloatOps JsMore.



(** [Math.round(x)]: the integral number closest to [x], the one towards
    plus infinity of two equally close ones; a result of zero keeps the
    sign of [x].  The sum [x + 1/2] is taken exactly, not in binary64. *)
Definition Math_round (x : float) : float :=
  match Prim2SF x with
  | S754_finite s m e =>
      if (0 <=? e)%Z then x
      else
        let n := if s then Z.neg m else Z.pos m in
        let r := ((2 * n + 2 ^ (- e)) / (2 * 2 ^ (- e)))%Z in
        if (r =? 0)%Z then (if s then neg_zero else zero) else Binary64.of_Z r
  | _ => x
  end.

(** The integer a number is, if it is one. *)
Definition integral (x : float) : option Z :=
  match Prim2SF x with
  | S754_zero _ => Some 0%Z
  | S754_finite s m e =>
      let n := if s then Z.neg m else Z.pos m in
      if (0 <=? e)%Z then Some (n * 2 ^ e)%Z
      else if (n mod 2 ^ (- e) =? 0)%Z then Some (n / 2 ^ (- e))%Z
      else None
  | _ => None
  end.

(** The text of a number in a template literal or as a React child, for
    NaN, the infinities and the integers of magnitude below 2^53, whose
    text is their decimal digits (both zeros read 0).  The text of the
    other numbers (digits after the point, exponents) is not spelled out:
    [None]. *)
Definition toString (x : float) : option string :=
  match Prim2SF x with
  | S754_nan => Some "NaN"
  | S754_infinity s => Some (if s then "-Infinity" else "Infinity")
  | _ =>
      match integral x with
      | Some n => if (Z.abs n <? 2 ^ 53)%Z then Some (pretty n) else None
      | None => None
      end
  end.

End JsNumber.

(* ===================================================================== *)
(** ** Texts of ASCII characters                                          *)
(* ===================================================================== *)

(** [toLowerCase] and [toUpperCase] of JavaScript follow Unicode.  On a
    text of ASCII characters they change the letters A to Z and a to z and
    nothing else, which is what [Js.toLowerCase] and [JsMore.toUpperCase]
    do; the properties of the case-insensitive search are stated for such
    texts. *)
Module JsAscii.
Import Api.

Definition is_ascii_char (c : ascii) : bool := (nat_of_ascii c <? 128)%nat.

Fixpoint is_ascii (s : string) : bool :=
  match s with
  | EmptyString => true
  | String c s' => is_ascii_char c && is_ascii s'
  end.

(** The fields of an alert the search reads. *)
Definition ascii_alert (alert : Alert) : bool :=
  is_ascii (customer_name alert) && is_ascii (message alert) && is_ascii (type alert).

(** The fields of a customer the search reads. *)
Definition ascii_customer (customer : Customer) : bool :=
  is_ascii (name customer) && is_ascii (JsMore.or_empty (customer_label customer)).

End JsAscii.

(* ===================================================================== *)
(** ** services/api.ts: percentages                                       *)
(* ===================================================================== *)

Module ApiFormat.
Import PrimFloat.

(** [formatPercentage]: the binary64 product [value * 100], rounded,
    followed by a percent sign; [None] where the text of the rounded
    number is not spelled out (a magnitude of 2^53 or more). *)
Definition formatPercentage (value : float) : option string :=
  option_map (fun percentage => (percentage ++ "%")%string)
    (JsNumber.toString (JsNumber.Math_round (value * 100)%float)).

End ApiFormat.

(* ===================================================================== *)
(** ** pages/AlertsPage.tsx: summary counts, type options and labels      *)
(* ===================================================================== *)

Module AlertsTable.
Import Api.

(** [alerts?.filter(a => a.severity === s).length || 0]. *)
Definition count_severity (s : string) (alerts : option (list Alert)) : nat :=
  match alerts with
  | Some l => length (List.filter (fun a => Js.str_eq (severity a) s) l)
  | None => 0%nat
  end.

Definition criticalAlerts := count_severity "critical".
Definition mediumAlerts := count_severity "medium".
Definition lowAlerts := count_severity "low".

(** [alerts?.length || 0], the total of the summary. *)
Definition totalAlerts (alerts : option (list Alert)) : nat :=
  match alerts with
  | Some l => length l
  | None => 0%nat
  end.

(** [[...new Set(alerts?.map(alert => alert.type) || [])]]: the options of
    the type selector, after 'all'. *)
Definition alertTypes (alerts : option (list Alert)) : list string :=
  JsMore.spread_Set
    match alerts with
    | Some l => map type l
    | None => []
    end.

(** [type.replace('_', ' ').toUpperCase()], the text of a type. *)
Definition type_label (type : string) : string :=
  JsMore.toUpperCase (JsMore.replace "_" " " type).

End AlertsTable.

(** The alerts page of the Material UI frontend: alerts grouped by
    severity. *)
Module AlertsList.
Import Api.

(** [alerts?.filter(a => a.severity === s) || []]. *)
Definition group (s : string) (alerts : option (list Alert)) : list Alert :=
  match alerts with
  | Some l => List.filter (fun a => Js.str_eq (severity a) s) l
  | None => []
  end.

Definition criticalAlerts := group "critical".
Definition mediumAlerts := group "medium".
Definition lowAlerts := group "low".

(** The alerts the page lists: the critical section, then the medium one.
    The low group is counted in the summary line only. *)
Definition listed (alerts : option (list Alert)) : list Alert :=
  (criticalAlerts alerts ++ mediumAlerts alerts)%list.

End AlertsList.

(* ===================================================================== *)
(** ** pages/AnalyticsPage.tsx: the customer table, its filter and cards  *)
(* ===================================================================== *)

Module CustomersTable.
Import Api.

Section Filter.
(** The component state. *)
Variables searchText filterRisk : string.

Definition matchesSearch (customer : Customer) : bool :=
  Js.includes (Js.toLowerCase (name customer)) (Js.toLowerCase searchText)
  || Js.includes (Js.toLowerCase (JsMore.or_empty (customer_label customer)))
       (Js.toLowerCase searchText).

(** The callback of [filteredCustomers]. *)
Definition shown (customer : Customer) : bool :=
  if Js.str_eq filterRisk "all" then matchesSearch customer
  else
    let riskLevel :=
      Js.toLowerCase (CustomerList.label (CustomerList.getRiskLevel (health_score customer))) in
    matchesSearch customer && Js.str_eq riskLevel (Js.toLowerCase filterRisk).

(** [customers?.filter(...)]. *)
Definition filteredCustomers (customers : option (list Customer))
    : option (list Customer) :=
  option_map (List.filter shown) customers.
End Filter.

(** The values of the risk selector, 'all' apart. *)
Definition risk_options : list string := ["excellent"; "good"; "at risk"; "critical"].

(** The status of the progress bar in the health score column. *)
Definition progress_status (score : Q) : string :=
  let percentage := JsMore.Math_round (score * 100)%Q in
  if (percentage >=? 70)%Z then "success"
  else if (percentage >=? 30)%Z then "normal"
  else "exception".

(** The colours of the support ticket and last login tags. *)
Definition tickets_tag_color (tickets : Z) : string :=
  if (tickets >? 5)%Z then "red" else if (tickets >? 2)%Z then "orange" else "green".

Definition last_login_tag_color (days : Z) : string :=
  if (days >? 14)%Z then "red" else if (days >? 7)%Z then "orange" else "green".

(** [customers?.filter(p).length || 0]. *)
Definition count (p : Customer -> bool) (customers : option (list Customer)) : nat :=
  match customers with
  | Some cs => length (List.filter p cs)
  | None => 0%nat
  end.

(** The statistic cards. *)
Definition totalCustomers (customers : option (list Customer)) : nat :=
  match customers with
  | Some cs => length cs
  | None => 0%nat
  end.

Definition healthyCustomers := count (fun c => Num.geb (health_score c) 0.7).
Definition atRisk := count (fun c => Num.ltb (health_score c) 0.6).

(** [customers?.reduce((sum, c) => sum + c.mrr, 0) || 0]. *)
Definition totalMrr (customers : option (list Customer)) : Q :=
  match customers with
  | Some cs => JsMore.sum_by mrr cs
  | None => 0%Q
  end.

End CustomersTable.

(* ===================================================================== *)
(** ** The dashboard page: progress bars, short lists and revenue cards   *)
(* ===================================================================== *)

Module DashboardCards.
Import Api.

(** The status [HealthScoreProgress] hands to the progress bar. *)
Definition HealthScoreProgress_status (score : Q) : string :=
  let percentage := JsMore.Math_round (score * 100)%Q in
  let status := "normal" in
  if (percentage >=? 70)%Z then "success"
  else if (percentage <? 30)%Z then "exception"
  else status.

(** [customers?.filter(c => c.health_score < 0.6).slice(0, 5) || []]. *)
Definition atRiskCustomers (customers : option (list Customer)) : list Customer :=
  match customers with
  | Some cs => JsArray.slice0 5 (List.filter (fun c => Num.ltb (health_score c) 0.6) cs)
  | None => []
  end.

(** The critical risk card. *)
Definition criticalRisk := CustomersTable.count (fun c => Num.ltb (health_score c) 0.3).

(** The revenue at risk card:
    [customers?.filter(c => c.health_score < 0.6).reduce(...) || 0]. *)
Definition revenueAtRisk (customers : option (list Customer)) : Q :=
  match customers with
  | Some cs => JsMore.sum_by mrr (List.filter (fun c => Num.ltb (health_score c) 0.6) cs)
  | None => 0%Q
  end.

End DashboardCards.

(* ===================================================================== *)
(** ** The actions page: the dashboard data and the lookup by id          *)
(* ===================================================================== *)

Module ActionsDashboard.
Import ActionsPage.

Record Summary := mkSummary {
  total_recommendations : Z;
  critical_actions : Z;
  high_priority_actions : Z;
  medium_priority_actions : Z
}.

Record ByUrgency := mkByUrgency {
  critical : list Action;
  high : list Action;
  medium : list Action
}.

Record ByCategory := mkByCategory {
  retention : Z;
  engagement : Z;
  expansion : Z;
  support : Z
}.

Record ActionsDashboard := mkActionsDashboard {
  summary : Summary;
  by_urgency : ByUrgency;
  by_category : ByCategory;
  top_actions_today : list Action
}.

(** The array [findActionById] searches. *)
Definition allActions (d : ActionsDashboard) : list Action :=
  (critical (by_urgency d) ++ high (by_urgency d) ++ medium (by_urgency d)
   ++ top_actions_today d)%list.

Definition findActionById (dashboardData : option ActionsDashboard) (actionId : string)
    : JsMore.Maybe Action :=
  match dashboardData with
  | None => JsMore.null
  | Some d => JsMore.find (fun action => Js.str_eq (id action) actionId) (allActions d)
  end.

End ActionsDashboard.

(** components/ActionCard.tsx: what the card shows for an urgency. *)
Module ActionCard.

Record UrgencyConfig := mkUrgencyConfig { color : string; text : string }.

Definition getUrgencyConfig (urgency : string) : UrgencyConfig :=
  if Js.str_eq urgency "critical" then mkUrgencyConfig "red" "Critical"
  else if Js.str_eq urgency "high" then mkUrgencyConfig "orange" "High Priority"
  else if Js.str_eq urgency "medium" then mkUrgencyConfig "blue" "Medium Priority"
  else mkUrgencyConfig "default" "Low Priority".

(** The colour of the left border of the card. *)
Definition border_color (urgency : string) : string :=
  let urgencyConfig := getUrgencyConfig urgency in
  if Js.str_eq (color urgencyConfig) "red" then "#f5222d"
  else if Js.str_eq (color urgencyConfig) "orange" then "#fa8c16"
  else "#1890ff".

End ActionCard.

(* ===================================================================== *)
(** ** init-db.sql: the keys of the health score table                    *)
(* ===================================================================== *)

Module SchemaKeys.
Import Schema.

(** The key of a row under [UNIQUE (customer_id, calculated_at)]; a row
    with a NULL [customer_id] or a NULL [calculated_at] has none. *)
Definition customer_timestamp (r : Row) : option (string * Z) :=
  match customer_id r, calculated_at r with
  | Some c, Some at_ => Some (c, at_)
  | _, _ => None
  end.

(** No two rows share a primary key, no two a customer and time stamp. *)
Definition distinct_keys (t : Table) : Prop :=
  NoDup (map id t) /\ NoDup (omap customer_timestamp t).

(** What a statement on the scores leaves of a row. *)
Definition same_identity (r r' : Row) : Prop :=
  id r' = id r /\ customer_id r' = customer_id r /\
  calculated_at r' = calculated_at r /\ model_version r' = model_version r.

End SchemaKeys.

(* ===================================================================== *)
(** ** init-db.sql: the alerts table                                      *)
(* ===================================================================== *)

Module AlertsSchema.

(** [CREATE TYPE alert_type] and [CREATE TYPE alert_status]. *)
Definition alert_type : list string :=
  ["churn_risk"; "upsell_opportunity"; "usage_decline"; "engagement_drop"; "payment_issue"].
Definition alert_status : list string :=
  ["open"; "acknowledged"; "in_progress"; "resolved"; "dismissed"].

Inductive Error :=
  | invalid_enum_value (enum value : string)
  | constraint_error (e : Schema.SqlError).

(** A column of an [INSERT]: left out of the column list, or given a value
    that may be NULL. *)
Inductive Given (A : Type) :=
  | omitted
  | given (v : option A).
Arguments omitted {A}.
Arguments given {A}.

(** The values of an [INSERT INTO alerts].  Of the columns with a default
    only [severity] and [status] are modelled with it; [id] and the time
    stamps are the caller's. *)
Record Values := mkValues {
  v_id : string;
  v_customer_id : option string;
  v_alert_type : option string;
  v_severity : Given string;
  v_status : Given string;
  v_title : option string;
  v_description : option string;
  v_risk_score : option Q;
  v_risk_factors : option string;
  v_suggested_actions : option string;
  v_assigned_to : option string;
  v_created_at : option Z;
  v_updated_at : option Z;
  v_resolved_at : option Z
}.

Record Row := mkRow {
  id : string;
  customer_id : option string;
  type_ : string;
  severity : string;
  status : string;
  title : string;
  description : option string;
  risk_score : option Z;
  risk_factors : option string;
  suggested_actions : option string;
  assigned_to : option string;
  created_at : option Z;
  updated_at : option Z;
  resolved_at : option Z
}.

Definition Table : Type := list Row.

Definition Sql (A : Type) : Type := Error + A.
Definition bind {A B} (m : Sql A) (k : A -> Sql B) : Sql B :=
  match m with
  | inl e => inl e
  | inr a => k a
  end.
Notation "x <- m ;; k" := (bind m (fun x => k))
  (at level 100, m at next level, right associativity).

(** The cast of a text to an enumeration: a text that is no label fails. *)
Definition cast_enum (enum : string) (labels : list string) (x : option string)
    : Sql (option string) :=
  match x with
  | None => inr None
  | Some s =>
      if existsb (String.eqb s) labels then inr (Some s)
      else inl (invalid_enum_value enum s)
  end.

(** A column with a default takes it when it is left out. *)
Definition with_default {A} (default : A) (x : Given A) : option A :=
  match x with
  | omitted => Some default
  | given v => v
  end.

Definition not_null {A} (column : string) (x : option A) : Sql A :=
  match x with
  | Some a => inr a
  | None => inl (constraint_error (Schema.not_null_violation column))
  end.

Definition lift {A} (m : Schema.Sql A) : Sql A :=
  match m with
  | inl e => inl (constraint_error e)
  | inr a => inr a
  end.

(** [INSERT]: the casts, the defaults, then NOT NULL, the CHECK on
    [risk_score] and the primary key. *)
Definition insert (t : Table) (v : Values) : Sql Table :=
  ty <- cast_enum "alert_type" alert_type (v_alert_type v) ;;
  sev <- cast_enum "alert_severity" Schema.alert_severity
           (with_default "medium" (v_severity v)) ;;
  st <- cast_enum "alert_status" alert_status (with_default "open" (v_status v)) ;;
  score <- lift (Schema.cast (v_risk_score v)) ;;
  ty <- not_null "alert_type" ty ;;
  sev <- not_null "severity" sev ;;
  st <- not_null "status" st ;;
  ti <- not_null "title" (v_title v) ;;
  if negb (Schema.check_passes score)
  then inl (constraint_error (Schema.check_violation "risk_score"))
  else if existsb (fun r => String.eqb (id r) (v_id v)) t
  then inl (constraint_error (Schema.unique_violation "alerts_pkey"))
  else inr (t ++ [mkRow (v_id v) (v_customer_id v) ty sev st ti (v_description v) score
                    (v_risk_factors v) (v_suggested_actions v) (v_assigned_to v)
                    (v_created_at v) (v_updated_at v) (v_resolved_at v)])%list.

(** A session of inserts, each in its own transaction. *)
Definition run (t : Table) (vs : list Values) : Table :=
  fold_left (fun t v => match insert t v with inr t' => t' | inl _ => t end) vs t.

(** A row the declarations allow. *)
Definition row_ok (r : Row) : Prop :=
  In (type_ r) alert_type /\ In (severity r) Schema.alert_severity /\
  In (status r) alert_status /\ Schema.score_in_range (risk_score r).

End AlertsSchema.

(* ===================================================================== *)
(** ** The prototype's scoring and alert rules in binary64                *)
(* ===================================================================== *)

(** [calculate_health_score] and [generate_alerts] once more, with the
    numbers Python computes with: the score is a [float], and the
    penalties are subtracted in binary64. *)
Module Prototype64.
Import PrimFloat.
Local Open Scope float_scope.

(** The attributes of a customer the two functions read. *)
Record Customer := mkCustomer {
  name : string;
  usage_score : float;
  support_tickets : Z;
  last_login_days : Z;
  health_score : float
}.

(** Python's [max(0, score)]: [score] when it is greater than 0, else the
    integer 0, which compares and prints as the number zero. *)
Definition max0 (score : float) : float := if 0 <? score then score else 0.

Definition calculate_health_score (customer : Customer) : float :=
  let score := 1.0 in
  (* Usage penalty *)
  let score :=
    if usage_score customer <? 0.3 then score - 0.4
    else if usage_score customer <? 0.6 then score - 0.2
    else score in
  (* Support tickets penalty *)
  let score :=
    if (5 <? support_tickets customer)%Z then score - 0.3
    else if (2 <? support_tickets customer)%Z then score - 0.1
    else score in
  (* Login recency penalty *)
  let score :=
    if (30 <? last_login_days customer)%Z then score - 0.4
    else if (7 <? last_login_days customer)%Z then score - 0.2
    else score in
  max0 score.

(** The penalties in whole tenths, and the tenths they leave of 1.0 in
    exact arithmetic. *)
Definition penalty_tenths (customer : Customer) : Z :=
  (if usage_score customer <? 0.3 then 4
   else if usage_score customer <? 0.6 then 2 else 0)
  + (if (5 <? support_tickets customer)%Z then 3
     else if (2 <? support_tickets customer)%Z then 1 else 0)
  + (if (30 <? last_login_days customer)%Z then 4
     else if (7 <? last_login_days customer)%Z then 2 else 0).

Definition exact_tenths (customer : Customer) : Z :=
  Z.max 0 (10 - penalty_tenths customer).

Definition churn_risk_alert (customer : Customer) : Prototype.AlertDict :=
  Prototype.mkAlertDict "churn_risk" "critical"
    (name customer ++ " has very low health score")%string
    ["Schedule urgent call"; "Send retention offer"].

Definition engagement_risk_alert (customer : Customer) : Prototype.AlertDict :=
  Prototype.mkAlertDict "engagement_risk" "medium"
    (name customer ++ " hasn't logged in for "
     ++ pretty (last_login_days customer) ++ " days")%string
    ["Send check-in email"; "Share new feature update"].

Definition generate_alerts (customer : Customer) : list Prototype.AlertDict :=
  let alerts : list Prototype.AlertDict := [] in
  let alerts :=
    if health_score customer <? 0.3
    then (alerts ++ [churn_risk_alert customer])%list else alerts in
  let alerts :=
    if (14 <? last_login_days customer)%Z
    then (alerts ++ [engagement_risk_alert customer])%list else alerts in
  alerts.

(** Whether the alerts hold one of the given type. *)
Definition raises (ty : string) (alerts : list Prototype.AlertDict) : bool :=
  existsb (fun a => String.eqb (Prototype.type a) ty) alerts.

End Prototype64.

(* ===================================================================== *)
(** ** pages/AnalyticsPage.tsx: the health trend of the customer report   *)
(* ===================================================================== *)

Module CustomerReport.
Import PrimFloat JsMore.

(** [customerHealth.health_trend] as the response carries it.  The
    interface [HealthTrend] declares [trend] as one of three strings and
    [change_30d] and [forecast_30d] as numbers; at run time a field holds
    what the JSON holds, which may be [null], or nothing ([undefined]). *)
Record HealthTrend := mkHealthTrend {
  trend : Maybe string;
  change_30d : Maybe float;
  forecast_30d : Maybe float
}.

(** The icons of the page's own [getTrendIcon]. *)
Inductive Icon := TrendingUp | TrendingDown | RemoveIcon.

(** [getTrendIcon(trend?: string)]: the [default] branch of the switch
    repeats the icon of 'stable'. *)
Definition getTrendIcon (trend : Maybe string) : Icon :=
  match trend with
  | value t =>
      if Js.str_eq t "improving" then TrendingUp
      else if Js.str_eq t "declining" then TrendingDown
      else RemoveIcon
  | _ => RemoveIcon
  end.





End CustomerReport.

(* ===================================================================== *)
(** ** Sample data                                                        *)
(* ===================================================================== *)

Module Sample.
Import Api.

(** A customer with the given raw inputs and health score. *)
Definition customer (id : Z) (name : string) (usage : Q) (tickets days : Z)
    (health : Q) : Customer :=
  mkCustomer id name 1500 usage tickets days "2024-01-15" health
    None (Some "current") None None None None.

(** Usage 0.1, eight tickets, 45 days without a login. *)
Definition churning : Customer := customer 1 "Globex" 0.1 8 45 0.
(** Usage 0.9, no ticket, logged in yesterday. *)
Definition healthy : Customer := customer 2 "Hooli" 0.9 0 1 1.

Definition portfolio : list Customer :=
  [ customer 1 "a" 0.5 0 0 0.25; customer 2 "b" 0.5 0 0 0.1;
    customer 3 "c" 0.5 0 0 0.5;  customer 4 "d" 0.5 0 0 0.1;
    customer 5 "e" 0.5 0 0 0.29; customer 6 "f" 0.5 0 0 0.05;
    customer 7 "g" 0.5 0 0 0.2;  customer 8 "h" 0.5 0 0 0.3;
    customer 9 "i" 0.5 0 0 0 ].

Definition alert (severity type customer_name : string) : Alert :=
  mkAlert 1 customer_name type severity "Usage dropped" [] "2024-01-20".

Definition inbox : list Alert :=
  [ alert "critical" "churn_risk" "Acme";
    alert "medium" "churn_risk" "Acme";
    alert "critical" "churn_risk" "Beta";
    alert "critical" "engagement_risk" "ACME Labs" ].

(** An insert that sets the overall score only. *)
Definition score_row (id : string) (overall : Q) (at_ : Z) : Schema.Values :=
  Schema.mkValues id (Some "c1")
    (Schema.mkScores (Some overall) None None None None None None) (Some at_)
    (Some "v1").

(** The same insert with a NULL time stamp. *)
Definition undated_row (id : string) (overall : Q) : Schema.Values :=
  Schema.mkValues id (Some "c1")
    (Schema.mkScores (Some overall) None None None None None None) None (Some "v1").

End Sample.

(* ===================================================================== *)
(** * Properties                                                          *)
(* ===================================================================== *)

(** ** Comparisons *)

Lemma geb_true (a b : Q) : Num.geb a b = true <-> (b <= a)%Q.
Proof. unfold Num.geb. apply Qle_bool_iff. Qed.

Lemma geb_false (a b : Q) : Num.geb a b = false <-> (a < b)%Q.
Proof.
  unfold Num.geb. rewrite <- not_true_iff_false, Qle_bool_iff.
  split; [apply Qnot_le_lt | apply Qlt_not_le].
Qed.

Lemma ltb_true (a b : Q) : Num.ltb a b = true <-> (a < b)%Q.
Proof. unfold Num.ltb. rewrite negb_true_iff. apply geb_false. Qed.

Lemma ltb_false (a b : Q) : Num.ltb a b = false <-> (b <= a)%Q.
Proof. unfold Num.ltb. rewrite negb_false_iff. apply geb_true. Qed.

Lemma gtb_true (a b : Q) : Num.gtb a b = true <-> (b < a)%Q.
Proof. apply (ltb_true b a). Qed.

Lemma gtb_false (a b : Q) : Num.gtb a b = false <-> (a <= b)%Q.
Proof. apply (ltb_false b a). Qed.

(** Case analysis on every comparison of the goal, each branch with the
    inequality it stands for among the hypotheses. *)
Ltac cmp_cases :=
  repeat match goal with
  | |- context [Num.geb ?a ?b] =>
      let E := fresh "Hge" in
      destruct (Num.geb a b) eqn:E;
      [apply geb_true in E | apply geb_false in E]
  | |- context [Num.ltb ?a ?b] =>
      let E := fresh "Hlt" in
      destruct (Num.ltb a b) eqn:E;
      [apply ltb_true in E | apply ltb_false in E]
  | |- context [Num.gtb ?a ?b] =>
      let E := fresh "Hgt" in
      destruct (Num.gtb a b) eqn:E;
      [apply gtb_true in E | apply gtb_false in E]
  end.

(** ** The risk classifier *)

Import CustomerList.

Lemma getRiskLevel_mui_label (s : Q) :
  label (getRiskLevel_mui s) = label (getRiskLevel s).
Proof. unfold getRiskLevel_mui, getRiskLevel. cmp_cases; reflexivity. Qed.

(** The colour of [getHealthColor] follows the same four bands. *)
Lemma getHealthColor_bands (s : Q) :
  Api.getHealthColor s =
  match label (getRiskLevel s) with
  | "Excellent" => "#4caf50"
  | "Good" => "#ff9800"
  | "At Risk" => "#f44336"
  | _ => "#d32f2f"
  end.
Proof. unfold Api.getHealthColor, getRiskLevel. cmp_cases; reflexivity. Qed.

(** The three levels of the first customer list coarsen the four bands. *)
Lemma getRiskLevel_three_coarsens (s : Q) :
  getRiskLevel_three s =
  match label (getRiskLevel s) with
  | "Critical" => "Critical"
  | "At Risk" => "Medium"
  | _ => "Healthy"
  end.
Proof.
  unfold getRiskLevel_three, getRiskLevel. cmp_cases; simpl; first [reflexivity | lra].
Qed.

(** C1.  For every score [s] in [0,1] the classifier of the customer list
    labels [s] Excellent on [0.8,1.0], Good on [0.6,0.8), At Risk on
    [0.3,0.6) and Critical on [0,0.3); the Material UI variant of the
    classifier gives the same label. *)
Theorem risk_classifier_bands (s : Q) :
  (0 <= s <= 1)%Q ->
  ((0.8 <= s <= 1.0)%Q -> label (getRiskLevel s) = "Excellent") /\
  ((0.6 <= s < 0.8)%Q -> label (getRiskLevel s) = "Good") /\
  ((0.3 <= s < 0.6)%Q -> label (getRiskLevel s) = "At Risk") /\
  ((0 <= s < 0.3)%Q -> label (getRiskLevel s) = "Critical") /\
  label (getRiskLevel_mui s) = label (getRiskLevel s).
Proof.
  intros _. unfold getRiskLevel at 1 2 3 4.
  repeat split; try apply getRiskLevel_mui_label;
    intros [Hlo Hhi]; cmp_cases; simpl; first [reflexivity | lra].
Qed.

Lemma risk_classifier_bands_witness :
  label (getRiskLevel 0.85) = "Excellent" /\
  label (getRiskLevel 0.65) = "Good" /\
  label (getRiskLevel 0.3) = "At Risk" /\
  label (getRiskLevel 0.29) = "Critical".
Proof.
  split; [| split; [| split]].
  - apply (risk_classifier_bands 0.85); split; unfold Qle; simpl; lia.
  - apply (risk_classifier_bands 0.65); split; unfold Qle, Qlt; simpl; lia.
  - apply (risk_classifier_bands 0.3); split; unfold Qle, Qlt; simpl; lia.
  - apply (risk_classifier_bands 0.29); split; unfold Qle, Qlt; simpl; lia.
Defined.

(** ** The bands of the distribution chart *)

Import Dashboard.

Lemma band_cases (c : Api.Customer) :
  (band_excellent c, band_good c, band_at_risk c, band_critical c)
  = match label (getRiskLevel (Api.health_score c)) with
    | "Excellent" => (true, false, false, false)
    | "Good" => (false, true, false, false)
    | "At Risk" => (false, false, true, false)
    | _ => (false, false, false, true)
    end.
Proof.
  unfold band_excellent, band_good, band_at_risk, band_critical, getRiskLevel.
  cmp_cases; simpl; first [reflexivity | lra].
Qed.

(** C3.  The four bands partition the scores: whatever the score of a
    customer, exactly one of the four filters of the distribution chart
    accepts it, and it is the band whose label the classifier assigns. *)
Theorem classifier_bands_partition (c : Api.Customer) :
  length (List.filter (fun b => snd b c) bands) = 1%nat /\
  (band_excellent c = true <-> label (getRiskLevel (Api.health_score c)) = "Excellent") /\
  (band_good c = true <-> label (getRiskLevel (Api.health_score c)) = "Good") /\
  (band_at_risk c = true <-> label (getRiskLevel (Api.health_score c)) = "At Risk") /\
  (band_critical c = true <-> label (getRiskLevel (Api.health_score c)) = "Critical").
Proof.
  pose proof (band_cases c) as H. unfold bands. simpl.
  unfold getRiskLevel in *.
  destruct (Num.geb (Api.health_score c) 0.8);
    [| destruct (Num.geb (Api.health_score c) 0.6);
       [| destruct (Num.geb (Api.health_score c) 0.3)]];
    simpl in *; injection H as -> -> -> ->; simpl;
    repeat split; intros; congruence.
Qed.

Lemma band_one_hot (c : Api.Customer) :
  (Nat.b2n (band_excellent c) + Nat.b2n (band_good c)
   + Nat.b2n (band_at_risk c) + Nat.b2n (band_critical c) = 1)%nat.
Proof.
  unfold band_excellent, band_good, band_at_risk, band_critical.
  cmp_cases; simpl; first [reflexivity | lra].
Qed.

(** Every customer is counted in exactly one bar of the chart. *)
Lemma healthDistribution_total (cs : list Api.Customer) :
  list_sum (map snd (healthDistribution (Some cs))) = length cs.
Proof.
  unfold healthDistribution, bands. simpl.
  induction cs as [| c cs IH]; [reflexivity |].
  pose proof (band_one_hot c) as H. simpl.
  destruct (band_excellent c), (band_good c), (band_at_risk c), (band_critical c);
    simpl in *; lia.
Qed.

(** ** Scores stay in [0,1] *)

Import Prototype.

Lemma max0_range (x : Q) : (x <= 1)%Q -> (0 <= max0 x <= 1)%Q.
Proof. intros H. unfold max0. cmp_cases; lra. Qed.

Lemma calculate_health_score_range (c : Api.Customer) :
  (0 <= calculate_health_score c <= 1)%Q.
Proof.
  unfold calculate_health_score. cbv zeta. apply max0_range.
  cmp_cases;
    destruct (5 <? Api.support_tickets c)%Z, (2 <? Api.support_tickets c)%Z,
             (30 <? Api.last_login_days c)%Z, (7 <? Api.last_login_days c)%Z;
    lra.
Qed.

Module SchemaFacts.
Import Schema.

Lemma to_score_range (v : Z) : (0 <= v <= 100)%Z -> (0 <= to_score v <= 1)%Q.
Proof.
  intros [H0 H1]. unfold to_score, Qdiv, Qle, Qmult, Qinv, inject_Z. simpl. lia.
Qed.

Lemma check_passes_range (h : option Z) : check_passes h = true -> score_in_range h.
Proof.
  destruct h as [v |]; simpl; [| trivial].
  rewrite andb_true_iff, !Z.leb_le. apply to_score_range.
Qed.

Lemma check_columns_ok (cols : list (string * option Z)) :
  check_columns cols = inr tt -> Forall (fun col => score_in_range (snd col)) cols.
Proof.
  induction cols as [| [col h] rest IH]; simpl; intros H.
  - constructor.
  - destruct (check_passes h) eqn:E; [| discriminate].
    constructor; [apply check_passes_range, E | apply IH, H].
Qed.

Lemma checked_scores_ok (s : Scores Q) (z : Scores Z) :
  checked_scores s = inr z ->
  Forall (fun col => score_in_range (snd col)) (columns z).
Proof.
  unfold checked_scores, bind. destruct (cast_scores s) as [e | z']; [discriminate |].
  destruct (check_columns (columns z')) as [e | []] eqn:E; [discriminate |].
  intros [= <-]. apply check_columns_ok, E.
Qed.

Lemma insert_ok (t t' : Table) (v : Values) :
  insert t v = inr t' -> table_ok t -> table_ok t'.
Proof.
  unfold insert, bind, ret. intros H Ht.
  destruct (cast_scores (v_scores v)) as [e | z]; [discriminate |].
  destruct (v_model_version v) as [mv |]; [| discriminate].
  destruct (check_columns (columns z)) as [e | []] eqn:Ez; [discriminate |].
  destruct (existsb _ t); [discriminate |].
  destruct (existsb _ t); [discriminate |].
  injection H as <-. apply Forall_app. split; [exact Ht |].
  constructor; [| constructor]. apply check_columns_ok, Ez.
Qed.

Lemma update_scores_ok (where_ : Row -> bool) (set : Row -> Scores Q) (t t' : Table) :
  update_scores where_ set t = inr t' -> table_ok t -> table_ok t'.
Proof.
  revert t'. induction t as [| r rest IH]; simpl; intros t' H Ht.
  - injection H as <-. constructor.
  - apply Forall_cons_iff in Ht as [Hr Hrest]. unfold bind, ret in H.
    destruct (where_ r).
    + destruct (checked_scores (set r)) as [e | z] eqn:Ez; [discriminate |].
      destruct (update_scores where_ set rest) as [e | rest']; [discriminate |].
      injection H as <-. constructor; [| apply IH; auto].
      apply (checked_scores_ok _ _ Ez).
    + destruct (update_scores where_ set rest) as [e | rest']; [discriminate |].
      injection H as <-. constructor; [exact Hr | apply IH; auto].
Qed.

Lemma updated_ok (set : Row -> Values) (r r' : Row) :
  updated set r = inr r' -> row_ok r'.
Proof.
  unfold updated, bind, ret. intros H.
  destruct (cast_scores (v_scores (set r))) as [e | z]; [discriminate |].
  destruct (v_model_version (set r)) as [mv |]; [| discriminate].
  destruct (check_columns (columns z)) as [e | []] eqn:Ez; [discriminate |].
  injection H as <-. apply check_columns_ok, Ez.
Qed.

Lemma update_rows_ok (where_ : Row -> bool) (set : Row -> Values) (t t' : Table) :
  update_rows where_ set t = inr t' -> table_ok t -> table_ok t'.
Proof.
  revert t'. induction t as [| r rest IH]; simpl; intros t' H Ht.
  - injection H as <-. constructor.
  - apply Forall_cons_iff in Ht as [Hr Hrest]. unfold bind, ret in H.
    destruct (where_ r).
    + destruct (updated set r) as [e | r'] eqn:Er; [discriminate |].
      destruct (update_rows where_ set rest) as [e | rest']; [discriminate |].
      injection H as <-. constructor; [| apply IH; auto].
      apply (updated_ok _ _ _ Er).
    + destruct (update_rows where_ set rest) as [e | rest']; [discriminate |].
      injection H as <-. constructor; [exact Hr | apply IH; auto].
Qed.

Lemma update_ok (where_ : Row -> bool) (set : Row -> Values) (t t' : Table) :
  update where_ set t = inr t' -> table_ok t -> table_ok t'.
Proof.
  unfold update, bind, ret. intros H Ht.
  destruct (update_rows where_ set t) as [e | u] eqn:Eu; [discriminate |].
  destruct (unique_rows same_id u); [| discriminate].
  destruct (unique_rows same_key u); [| discriminate].
  injection H as <-. apply (update_rows_ok _ _ _ _ Eu Ht).
Qed.

Lemma delete_ok (where_ : Row -> bool) (t : Table) :
  table_ok t -> table_ok (delete where_ t).
Proof.
  unfold table_ok, delete. rewrite !List.Forall_forall.
  intros H r Hr. apply List.filter_In in Hr as [Hr _]. apply H, Hr.
Qed.

Lemma exec_ok (t t' : Table) (s : Statement) :
  exec t s = inr t' -> table_ok t -> table_ok t'.
Proof.
  destruct s as [v | w f | w f | w]; simpl.
  - apply insert_ok.
  - apply update_scores_ok.
  - apply update_ok.
  - intros [= <-]. apply delete_ok.
Qed.

Lemma run_ok (ss : list Statement) (t : Table) : table_ok t -> table_ok (run t ss).
Proof.
  revert t. induction ss as [| s ss IH]; intros t Ht; [exact Ht |].
  unfold run in *. simpl. apply IH.
  destruct (exec t s) as [e | t'] eqn:E; [exact Ht | apply (exec_ok _ _ _ E Ht)].
Qed.

Lemma round_hundredths_unit (x : Q) :
  (0 <= x <= 1)%Q -> (0 <= round_hundredths x <= 100)%Z.
Proof.
  intros [H0 H1]. unfold round_hundredths.
  destruct (Num.geb x 0) eqn:E; [| apply geb_false in E; exfalso; lra].
  split.
  - apply (Qfloor_resp_le (1 # 2)). lra.
  - apply (Qfloor_resp_le _ (201 # 2)). lra.
Qed.

(** A score in [0,1] is accepted by the column and its constraint. *)
Lemma unit_score_storable (x : Q) :
  (0 <= x <= 1)%Q ->
  exists h, cast (Some x) = inr (Some h) /\ check_passes (Some h) = true.
Proof.
  intros H. apply round_hundredths_unit in H. unfold cast, decimal_3_2, bind, ret.
  exists (round_hundredths x). split.
  - destruct (Z.leb_spec (Z.abs (round_hundredths x)) 999); [reflexivity | lia].
  - simpl. apply andb_true_iff. rewrite !Z.leb_le. exact H.
Qed.

End SchemaFacts.

(** C2.  Scores lie in [0,1]: the rule-based health score of every
    customer does, and so does every score stored (not NULL) in a row of
    [customer_health_scores], whatever statements were run on the table. *)
Theorem scores_in_unit_interval :
  (forall c : Api.Customer, (0 <= calculate_health_score c <= 1)%Q) /\
  (forall (ss : list Schema.Statement) (r : Schema.Row) (col : string) (v : Z),
     In r (Schema.run [] ss) ->
     In (col, Some v) (Schema.columns (Schema.scores r)) ->
     (0 <= Schema.to_score v <= 1)%Q).
Proof.
  split; [apply calculate_health_score_range |].
  intros ss r col v Hr Hcol.
  assert (Hok : Schema.table_ok (Schema.run [] ss))
    by (apply SchemaFacts.run_ok; constructor).
  unfold Schema.table_ok in Hok. rewrite List.Forall_forall in Hok.
  specialize (Hok r Hr). unfold Schema.row_ok in Hok.
  rewrite List.Forall_forall in Hok. apply (Hok _ Hcol).
Qed.

(** ** Monotonicity of the rule-based score *)

Lemma max0_mono (x y : Q) : (x <= y)%Q -> (max0 x <= max0 y)%Q.
Proof. intros H. unfold max0. cmp_cases; lra. Qed.

(** Case analysis on the integer tests of the goal. *)
Ltac ztest_cases :=
  repeat match goal with
  | |- context [(?a <? ?b)%Z] => destruct (Z.ltb_spec a b); try lia
  end.

(** C8.  The rule-based health score never decreases when an input it
    treats as positive improves: a higher usage score, fewer open support
    tickets, a more recent login (fewer days since the last one).  It reads
    no other field of the customer (NPS, revenue, ...), so a change there,
    up or down, leaves it as it is. *)
Theorem calculate_health_score_monotone (c1 c2 : Api.Customer) :
  (Api.usage_score c1 <= Api.usage_score c2)%Q ->
  (Api.support_tickets c2 <= Api.support_tickets c1)%Z ->
  (Api.last_login_days c2 <= Api.last_login_days c1)%Z ->
  (calculate_health_score c1 <= calculate_health_score c2)%Q.
Proof.
  intros Hu Ht Hd. unfold calculate_health_score. cbv zeta. apply max0_mono.
  ztest_cases; cmp_cases; lra.
Qed.

Lemma calculate_health_score_monotone_witness :
  (calculate_health_score
     (Api.mkCustomer 1 "Acme" 1200 0.25 6 45 "2024-01-15" 0 None None None None (Some 5) None)
   <= calculate_health_score
        (Api.mkCustomer 1 "Acme" 1200 0.7 1 3 "2024-01-15" 0 None None None None (Some 9) None))%Q.
Proof.
  apply calculate_health_score_monotone; simpl; [unfold Qle; simpl; lia | lia | lia].
Defined.

(** ** Filters keep a subsequence *)

Lemma filter_sublist {A : Type} (p : A -> bool) (l : list A) :
  sublist (List.filter p l) l.
Proof.
  induction l as [| x l IH]; simpl.
  - constructor.
  - destruct (p x); [apply sublist_skip | apply sublist_cons]; exact IH.
Qed.

Lemma filter_all {A : Type} (p : A -> bool) (l : list A) :
  (forall x, p x = true) -> List.filter p l = l.
Proof.
  intros Hp. induction l as [| x l IH]; simpl; [reflexivity |].
  rewrite Hp, IH. reflexivity.
Qed.

Lemma includes_empty (s : string) : Js.includes s "" = true.
Proof. destruct s; reflexivity. Qed.

(** C9.  Filtering restricts the list and never reorders or invents:
    the alerts the page shows are a subsequence of the alerts it was
    given, and with an empty search text and both selectors on 'all' they
    are exactly the alerts given.  The filter of the actions page behaves
    the same way. *)
Theorem alert_filter_restricts (alerts : list Api.Alert) :
  (forall searchText filterSeverity filterType : string,
     exists shown,
       AlertsPage.filteredAlerts searchText filterSeverity filterType (Some alerts)
       = Some shown /\ sublist shown alerts) /\
  AlertsPage.filteredAlerts "" "all" "all" (Some alerts) = Some alerts /\
  (forall (selectedUrgency selectedCategory : string) (actions : list ActionsPage.Action),
     sublist (ActionsPage.filterActions selectedUrgency selectedCategory actions) actions) /\
  (forall actions : list ActionsPage.Action,
     ActionsPage.filterActions "all" "all" actions = actions).
Proof.
  repeat split.
  - intros s fs ft. eexists. split; [reflexivity | apply filter_sublist].
  - unfold AlertsPage.filteredAlerts. simpl. f_equal. apply filter_all.
    intros a. unfold AlertsPage.matchesSearch. simpl.
    rewrite includes_empty. reflexivity.
  - intros u c actions. apply filter_sublist.
  - intros actions. apply filter_all. reflexivity.
Qed.

(** ** Sorting by a numeric key *)

Section SortByKey.
Context {A : Type} (key : A -> Q).

Local Abbreviation byKey := (fun a b : A => (key a - key b)%Q).
Local Abbreviation key_le := (fun a b : A => (key a <= key b)%Q).

Lemma insert_Permutation (x : A) (l : list A) :
  Permutation (JsArray.insert byKey x l) (x :: l).
Proof.
  induction l as [| y l IH]; simpl; [reflexivity |].
  destruct (Qle_bool (key x - key y) 0); [reflexivity |].
  rewrite IH. apply perm_swap.
Qed.

Lemma sort_Permutation (l : list A) : Permutation (JsArray.sort byKey l) l.
Proof.
  induction l as [| x l IH]; simpl; [reflexivity |].
  unfold JsArray.sort in *. simpl. rewrite insert_Permutation, IH. reflexivity.
Qed.

Lemma insert_StronglySorted (x : A) (l : list A) :
  StronglySorted key_le l -> StronglySorted key_le (JsArray.insert byKey x l).
Proof.
  induction 1 as [| y l Hl IH Hy]; simpl.
  - repeat constructor.
  - destruct (Qle_bool (key x - key y) 0) eqn:E.
    + apply Qle_bool_iff in E.
      assert (Hxy : (key x <= key y)%Q) by lra.
      constructor; [constructor; assumption |].
      constructor; [exact Hxy |].
      eapply List.Forall_impl; [| exact Hy].
      intros z Hz. simpl in *. lra.
    + apply not_true_iff_false in E. rewrite Qle_bool_iff in E.
      constructor; [exact IH |].
      rewrite insert_Permutation. constructor; [| exact Hy].
      simpl. lra.
Qed.

Lemma sort_StronglySorted (l : list A) : StronglySorted key_le (JsArray.sort byKey l).
Proof.
  induction l as [| x l IH]; [constructor |].
  unfold JsArray.sort in *. simpl. apply insert_StronglySorted, IH.
Qed.

Lemma take_StronglySorted (n : nat) (l : list A) :
  StronglySorted key_le l -> StronglySorted key_le (take n l).
Proof.
  intros H. revert n. induction H as [| y l Hl IH Hy]; intros [| n]; simpl;
    try constructor.
  - apply IH.
  - rewrite List.Forall_forall in *. intros z Hz. apply Hy.
    apply list_elem_of_In. apply list_elem_of_In in Hz.
    apply (subseteq_take n l), Hz.
Qed.

End SortByKey.

(** The customers of a list that a panel of five leaves out come after
    the ones it shows. *)
Lemma take_drop_StronglySorted {A : Type} (R : A -> A -> Prop) (n : nat) (l : list A) :
  StronglySorted R l ->
  Forall (fun other => Forall (fun shown => R shown other) (take n l)) (drop n l).
Proof.
  intros H. rewrite <- (take_drop n l) in H.
  apply List.Forall_forall. intros other Hother.
  apply List.Forall_forall. intros shown Hshown.
  apply (StronglySorted_app_1_elem_of _ _ _ shown other H);
    apply list_elem_of_In; assumption.
Qed.

(** C10.  The high-risk panel of the dashboard lists at most five
    customers, each of them a customer it was given whose health score is
    below 0.3, in the order of their health scores, the lowest first.  It
    lists all the customers below 0.3 when they are five or fewer and five
    of them otherwise, no customer it leaves out scoring lower than one it
    shows; so whenever a customer is below 0.3 the panel opens with a
    customer no other one undercuts. *)
Theorem high_risk_panel (customers : list Api.Customer) :
  (length (criticalCustomers customers) <= 5)%nat /\
  Forall (fun c => (Api.health_score c < 0.3)%Q /\ In c customers)
    (criticalCustomers customers) /\
  StronglySorted (fun a b => (Api.health_score a <= Api.health_score b)%Q)
    (criticalCustomers customers) /\
  (exists rest,
     Permutation (criticalCustomers customers ++ rest)%list
       (List.filter (fun c => Num.ltb (Api.health_score c) 0.3) customers) /\
     (rest = [] \/ length (criticalCustomers customers) = 5%nat) /\
     Forall (fun other =>
               Forall (fun shown => (Api.health_score shown <= Api.health_score other)%Q)
                 (criticalCustomers customers))
       rest) /\
  (forall c, In c customers -> (Api.health_score c < 0.3)%Q ->
     exists sickest,
       head (criticalCustomers customers) = Some sickest /\
       (Api.health_score sickest <= Api.health_score c)%Q).
Proof.
  unfold criticalCustomers, JsArray.slice0.
  set (critical := List.filter (fun c => Num.ltb (Api.health_score c) 0.3) customers).
  set (sorted := JsArray.sort (fun a b => (Api.health_score a - Api.health_score b)%Q)
                   critical).
  assert (Hperm : Permutation sorted critical) by apply (sort_Permutation Api.health_score).
  assert (Hsorted : StronglySorted
            (fun a b => (Api.health_score a <= Api.health_score b)%Q) sorted)
    by apply (sort_StronglySorted Api.health_score).
  split; [| split; [| split; [| split]]].
  - rewrite length_take. lia.
  - rewrite List.Forall_forall. intros c Hc.
    apply list_elem_of_In, subseteq_take, list_elem_of_In in Hc.
    eapply Permutation_in in Hc; [| exact Hperm].
    apply List.filter_In in Hc as [Hin Hlt]. apply ltb_true in Hlt. auto.
  - apply (take_StronglySorted Api.health_score), Hsorted.
  - exists (drop 5 sorted). split; [| split].
    + rewrite take_drop. exact Hperm.
    + destruct (le_lt_dec (length sorted) 5) as [Hle | Hgt].
      * left. apply drop_ge, Hle.
      * right. rewrite length_take. lia.
    + apply take_drop_StronglySorted, Hsorted.
  - intros c Hin Hlt.
    assert (Hc : In c sorted).
    { apply (Permutation_in _ (Permutation_sym Hperm)).
      apply List.filter_In. split; [exact Hin | apply ltb_true, Hlt]. }
    destruct sorted as [| first others]; [destruct Hc |].
    exists first. split; [reflexivity |].
    apply StronglySorted_inv in Hsorted as [_ Hfirst].
    destruct Hc as [<- | Hc]; [lra |].
    rewrite List.Forall_forall in Hfirst. apply Hfirst, Hc.
Qed.

(** ** Alert severities *)

Lemma generate_alerts_cases (c : Api.Customer) :
  generate_alerts c =
  ((if Num.ltb (Api.health_score c) 0.3 then [churn_risk_alert c] else [])
   ++ (if (14 <? Api.last_login_days c)%Z then [engagement_risk_alert c] else []))%list.
Proof.
  unfold generate_alerts. cbv zeta.
  destruct (Num.ltb (Api.health_score c) 0.3), (14 <? Api.last_login_days c)%Z;
    reflexivity.
Qed.

(** The engagement rule of the prototype at 45 days without a login: one
    alert of severity medium, and no alert of severity high. *)
Lemma engagement_risk_at_45_days :
  severities_of "engagement_risk" (generate_alerts dormant_customer) = ["medium"] /\
  existsb (fun a => String.eqb (severity a) "high") (generate_alerts dormant_customer)
  = false.
Proof. split; reflexivity. Qed.

(** C4, as the code has it.  Every alert carries a severity of the
    taxonomy low, medium, high, critical: the alerts the rules generate do,
    and so do the severities the frontend's [Alert] lists.  The engagement
    rule fires exactly when the last login is more than 14 days back and
    always gives severity medium, also beyond 30 days.  High is a value of
    the database enumeration and has a colour in the dashboard's tag. *)
Theorem alert_severity_taxonomy (c : Api.Customer) :
  Forall (fun a => In (severity a) Schema.alert_severity) (generate_alerts c) /\
  Forall (fun s => In s Schema.alert_severity) Api.Alert_severity /\
  severities_of "engagement_risk" (generate_alerts c)
  = (if (14 <? Api.last_login_days c)%Z then ["medium"] else []) /\
  In "high" Schema.alert_severity /\
  SeverityTag_colors !! "high" = Some "orange".
Proof.
  rewrite generate_alerts_cases. split; [| split; [| split; [| split]]].
  - destruct (Num.ltb (Api.health_score c) 0.3), (14 <? Api.last_login_days c)%Z;
      simpl; repeat (apply List.Forall_cons || apply List.Forall_nil);
      simpl; auto 6.
  - unfold Api.Alert_severity, Schema.alert_severity.
    repeat (apply List.Forall_cons || apply List.Forall_nil); simpl; auto 6.
  - destruct (Num.ltb (Api.health_score c) 0.3), (14 <? Api.last_login_days c)%Z;
      reflexivity.
  - simpl. auto.
  - reflexivity.
Qed.

(** The sorter of the alerts page ranks critical, medium and low only: an
    alert of severity high has no rank there. *)
Lemma sorter_ranks (a b : Api.Alert) :
  In (Api.severity a) Api.Alert_severity ->
  In (Api.severity b) Api.Alert_severity ->
  is_Some (AlertsPage.sorter a b).
Proof.
  unfold AlertsPage.sorter, Api.Alert_severity. simpl.
  intros [<- | [<- | [<- | []]]] [<- | [<- | [<- | []]]]; vm_compute; eauto.
Qed.

Lemma sorter_high_unranked :
  AlertsPage.order !! "high" = None /\
  Api.getSeverityColor "high" = "#757575".
Proof. split; reflexivity. Qed.

(** ** Urgency follows severity *)

Section Urgency.
Context {RiskFactors Actions : Type}.
Variable get_next_best_actions : string -> RiskFactors -> Actions.

(** No branch of [generate_alert] binds its locals for a risk score of 0.4
    or less, and the call ends in an exception. *)
Lemma generate_alert_unbound (customer_id : string) (risk_score : Q) (rf : RiskFactors) :
  (risk_score <= 0.4)%Q ->
  Architecture.generate_alert get_next_best_actions customer_id risk_score rf
  = inl (Architecture.UnboundLocalError "severity").
Proof.
  intros H. unfold Architecture.generate_alert, Architecture.severity_and_urgency.
  cmp_cases; first [reflexivity | lra].
Qed.


End Urgency.

(** Each urgency of a recommendation has a colour of its own; any other
    string falls to the grey of the [default] branch. *)
Lemma getUrgencyColor_known (u : string) :
  In u Api.ActionRecommendation_urgency -> Api.getUrgencyColor u <> "#757575".
Proof.
  unfold Api.ActionRecommendation_urgency. simpl.
  intros [<- | [<- | [<- | []]]]; discriminate.
Qed.



(** ** The trend analyzer *)

Import TrendAnalyzer.

(** C6.  For a tolerance epsilon that is not negative (0.02 unless
    configured) the direction of a change [c] is improving exactly when
    [c > epsilon], declining exactly when [c < -epsilon] and stable exactly
    in between: each change has one direction and only one. *)
Theorem direction_rule (eps c : Q) :
  (0 <= eps)%Q ->
  (direction_of eps c = Api.improving <-> (eps < c)%Q) /\
  (direction_of eps c = Api.declining <-> (c < - eps)%Q) /\
  (direction_of eps c = Api.stable <-> (- eps <= c <= eps)%Q) /\
  (epsilon default_config == 0.02)%Q.
Proof.
  intros Heps. unfold direction_of.
  split; [| split; [| split]]; try reflexivity;
    cmp_cases; (split; [intros E; first [discriminate E | lra] | intros E; first [reflexivity | lra]]).
Qed.

Lemma direction_rule_witness :
  (direction_of (epsilon default_config) 0.05 = Api.improving <-> (0.02 < 0.05)%Q) /\
  (direction_of (epsilon default_config) 0.05 = Api.declining <-> (0.05 < - 0.02)%Q) /\
  (direction_of (epsilon default_config) 0.05 = Api.stable <-> (- 0.02 <= 0.05 <= 0.02)%Q) /\
  (epsilon default_config == 0.02)%Q.
Proof.
  apply (direction_rule 0.02 0.05). unfold Qle; simpl; lia.
Defined.

(** ** A trend without a 30-day change *)

Section TrendCard.
Import PrimFloat JsMore CustomerReport.



End TrendCard.

(** ** The definitions on sample data *)

Example churning_score : (calculate_health_score Sample.churning == 0)%Q.
Proof. reflexivity. Qed.

Example healthy_score :
  (calculate_health_score Sample.healthy == 1)%Q /\
  label (getRiskLevel (calculate_health_score Sample.healthy)) = "Excellent".
Proof. split; reflexivity. Qed.

Example churning_alerts :
  map (fun a => (type a, severity a)) (generate_alerts Sample.churning)
  = [("churn_risk", "critical"); ("engagement_risk", "medium")].
Proof. reflexivity. Qed.

Example engagement_message :
  map message (generate_alerts dormant_customer)
  = ["Initech hasn't logged in for 45 days"].
Proof. reflexivity. Qed.

Example panel_of_portfolio :
  map Api.name (criticalCustomers Sample.portfolio) = ["i"; "f"; "b"; "d"; "g"].
Proof. reflexivity. Qed.

Example chart_of_portfolio :
  map snd (healthDistribution (Some Sample.portfolio)) = [0; 0; 2; 7]%nat /\
  map snd (healthDistribution None) = [0; 0; 0; 0]%nat.
Proof. split; reflexivity. Qed.

Example search_acme_critical :
  AlertsPage.filteredAlerts "acme" "critical" "all" (Some Sample.inbox)
  = Some [Sample.alert "critical" "churn_risk" "Acme";
          Sample.alert "critical" "engagement_risk" "ACME Labs"] /\
  AlertsPage.filteredAlerts "acme" "critical" "all" None = None.
Proof. split; reflexivity. Qed.

Example sorter_critical_low :
  AlertsPage.sorter (Sample.alert "critical" "churn_risk" "Acme")
    (Sample.alert "low" "churn_risk" "Acme") = Some 2%Z.
Proof. reflexivity. Qed.

Example insert_rounds_then_checks :
  (exists r, Schema.insert [] (Sample.score_row "r1" 1.004 10) = inr [r] /\
             Schema.overall_score (Schema.scores r) = Some 100%Z) /\
  Schema.insert [] (Sample.score_row "r1" 1.005 10)
  = inl (Schema.check_violation "overall_score") /\
  Schema.insert [] (Sample.score_row "r1" (-0.005) 10)
  = inl (Schema.check_violation "overall_score") /\
  Schema.insert [] (Sample.score_row "r1" 12.5 10)
  = inl Schema.numeric_field_overflow.
Proof. repeat split. eexists. split; reflexivity. Qed.

Example session_keeps_valid_rows :
  map (fun r => (Schema.id r, Schema.overall_score (Schema.scores r)))
    (Schema.run []
       [ Schema.Insert (Sample.score_row "r1" 0.5 10);
         Schema.Insert (Sample.score_row "r1" 0.6 11);
         Schema.Insert (Sample.score_row "r2" 0.7 10);
         Schema.Insert (Sample.score_row "r3" 0.7 12);
         Schema.UpdateScores (fun r => String.eqb (Schema.id r) "r1")
           (fun _ => Schema.mkScores (Some 1.2%Q) None None None None None None);
         Schema.UpdateScores (fun r => String.eqb (Schema.id r) "r1")
           (fun _ => Schema.mkScores (Some 0.999%Q) None None None None None None);
         Schema.Delete (fun r => String.eqb (Schema.id r) "r2") ])
  = [("r1", Some 100%Z); ("r3", Some 70%Z)].
Proof. reflexivity. Qed.

(* ===================================================================== *)
(** * Further properties of the pages                                     *)
(* ===================================================================== *)

(** ** Severity groups of the alerts pages *)

(** An alert whose severity is none of critical, medium, low. *)
Lemma severity_tests (s : string) :
  (Nat.b2n (Js.str_eq s "critical") + Nat.b2n (Js.str_eq s "medium")
   + Nat.b2n (Js.str_eq s "low")
   + Nat.b2n (negb (existsb (String.eqb s) Api.Alert_severity)) = 1)%nat.
Proof.
  unfold Js.str_eq, Api.Alert_severity. simpl.
  destruct (String.eqb_spec s "critical") as [-> | _]; [reflexivity |].
  destruct (String.eqb_spec s "medium") as [-> | _]; [reflexivity |].
  destruct (String.eqb_spec s "low") as [-> | _]; reflexivity.
Qed.

(** X1.  The three counts of the summary row add up to the number of
    alerts less the alerts whose severity is none of critical, medium and
    low: such an alert (one of severity high, say) is in the total and in
    no count. *)
Theorem severity_counts_total (alerts : list Api.Alert) :
  (AlertsTable.criticalAlerts (Some alerts) + AlertsTable.mediumAlerts (Some alerts)
   + AlertsTable.lowAlerts (Some alerts)
   + length (List.filter
               (fun a => negb (existsb (String.eqb (Api.severity a)) Api.Alert_severity))
               alerts)
   = AlertsTable.totalAlerts (Some alerts))%nat.
Proof.
  unfold AlertsTable.criticalAlerts, AlertsTable.mediumAlerts, AlertsTable.lowAlerts,
    AlertsTable.count_severity, AlertsTable.totalAlerts.
  induction alerts as [| a alerts IH]; [reflexivity |].
  pose proof (severity_tests (Api.severity a)) as H.
  cbn [List.filter length].
  destruct (Js.str_eq (Api.severity a) "critical"),
           (Js.str_eq (Api.severity a) "medium"),
           (Js.str_eq (Api.severity a) "low"),
           (negb (existsb (String.eqb (Api.severity a)) Api.Alert_severity));
    cbn [Nat.b2n length] in *; lia.
Qed.


(** ** The options of the type selector *)

Lemma Set_add_In (content : list string) (x y : string) :
  In y (JsMore.Set_add content x) <-> In y content \/ y = x.
Proof.
  unfold JsMore.Set_add. destruct (existsb (String.eqb x) content) eqn:E.
  - split; [auto |]. intros [H | ->]; [exact H |].
    apply List.existsb_exists in E as [z [Hz Hxz]].
    apply String.eqb_eq in Hxz. subst z. exact Hz.
  - rewrite in_app_iff. simpl. intuition congruence.
Qed.

Lemma Set_add_NoDup (content : list string) (x : string) :
  NoDup content -> NoDup (JsMore.Set_add content x).
Proof.
  intros H. unfold JsMore.Set_add. destruct (existsb (String.eqb x) content) eqn:E.
  - exact H.
  - apply NoDup_app. split; [exact H | split].
    + intros y Hy Hyx. apply list_elem_of_In in Hy. apply list_elem_of_In in Hyx.
      destruct Hyx as [<- | []].
      assert (existsb (String.eqb x) content = true); [| congruence].
      apply List.existsb_exists. exists x. split; [exact Hy | apply String.eqb_refl].
    + apply NoDup_singleton.
Qed.

Lemma fold_Set_add_In (arr content : list string) (y : string) :
  In y (fold_left JsMore.Set_add arr content) <-> In y content \/ In y arr.
Proof.
  revert content. induction arr as [| x arr IH]; intros content; simpl.
  - tauto.
  - rewrite IH, Set_add_In. intuition.
Qed.

Lemma fold_Set_add_NoDup (arr content : list string) :
  NoDup content -> NoDup (fold_left JsMore.Set_add arr content).
Proof.
  revert content. induction arr as [| x arr IH]; intros content H; simpl.
  - exact H.
  - apply IH, Set_add_NoDup, H.
Qed.

Lemma fold_Set_add_sublist (arr content : list string) :
  sublist (fold_left JsMore.Set_add arr content) (content ++ arr)%list.
Proof.
  revert content. induction arr as [| x arr IH]; intros content; simpl.
  - rewrite app_nil_r. reflexivity.
  - specialize (IH (JsMore.Set_add content x)). unfold JsMore.Set_add in *.
    destruct (existsb (String.eqb x) content).
    + etransitivity; [exact IH |].
      apply sublist_app; [reflexivity | apply sublist_cons; reflexivity].
    + rewrite <- app_assoc in IH. exact IH.
Qed.

Lemma fold_Set_add_prefix (arr content : list string) :
  content `prefix_of` fold_left JsMore.Set_add arr content.
Proof.
  revert content. induction arr as [| x arr IH]; intros content; simpl.
  - reflexivity.
  - etransitivity; [| apply IH]. unfold JsMore.Set_add.
    destruct (existsb (String.eqb x) content); [reflexivity |].
    exists [x]. reflexivity.
Qed.

Lemma existsb_filter_other (x y : string) (content : list string) :
  y <> x ->
  existsb (String.eqb y) (List.filter (fun t => negb (String.eqb t x)) content)
  = existsb (String.eqb y) content.
Proof.
  intros Hne. induction content as [| z content IH]; simpl; [reflexivity |].
  destruct (String.eqb_spec z x) as [-> | Hz]; simpl; rewrite IH.
  - destruct (String.eqb_spec y x); [contradiction | reflexivity].
  - reflexivity.
Qed.

(** Adding to a set that opens with [x] is adding to the rest of it. *)
Lemma Set_add_first (x y : string) (content : list string) :
  JsMore.Set_add (x :: List.filter (fun t => negb (String.eqb t x)) content) y
  = x :: List.filter (fun t => negb (String.eqb t x)) (JsMore.Set_add content y).
Proof.
  unfold JsMore.Set_add. simpl existsb.
  destruct (String.eqb_spec y x) as [-> | Hne]; simpl.
  - destruct (existsb (String.eqb x) content); [reflexivity |].
    rewrite List.filter_app. simpl. rewrite String.eqb_refl. simpl.
    rewrite app_nil_r. reflexivity.
  - rewrite (existsb_filter_other x y content Hne).
    destruct (existsb (String.eqb y) content); [reflexivity |].
    rewrite List.filter_app. simpl.
    destruct (String.eqb_spec y x); [contradiction | reflexivity].
Qed.

Lemma fold_Set_add_first (x : string) (arr content : list string) :
  fold_left JsMore.Set_add arr (x :: List.filter (fun t => negb (String.eqb t x)) content)
  = x :: List.filter (fun t => negb (String.eqb t x)) (fold_left JsMore.Set_add arr content).
Proof.
  revert content. induction arr as [| y arr IH]; intros content; simpl; [reflexivity |].
  rewrite Set_add_first. apply IH.
Qed.

(** The options of the type selector hold no type twice, and hold the
    types of the alerts and nothing else. *)
Lemma alertTypes_members (alerts : list Api.Alert) :
  NoDup (AlertsTable.alertTypes (Some alerts)) /\
  (forall t, In t (AlertsTable.alertTypes (Some alerts)) <->
             exists a, In a alerts /\ Api.type a = t).
Proof.
  unfold AlertsTable.alertTypes, JsMore.spread_Set. split.
  - apply fold_Set_add_NoDup. constructor.
  - intros t. rewrite fold_Set_add_In, in_map_iff. simpl.
    split; [intros [[] | [a [Ha Hin]]]; eauto | intros [a [Hin Ha]]; eauto].
Qed.

(** X3.  The options of the type selector are the types of the alerts,
    each once, in the order in which they first occur in the alerts: the
    options of any first part of the alerts are the first options of the
    whole, and the type of an alert put in front comes first, followed by
    the other options as they were. *)
Theorem alertTypes_distinct (alerts : list Api.Alert) :
  NoDup (AlertsTable.alertTypes (Some alerts)) /\
  (forall t, In t (AlertsTable.alertTypes (Some alerts)) <->
             exists a, In a alerts /\ Api.type a = t) /\
  sublist (AlertsTable.alertTypes (Some alerts)) (map Api.type alerts) /\
  (forall before after, alerts = (before ++ after)%list ->
     AlertsTable.alertTypes (Some before) `prefix_of` AlertsTable.alertTypes (Some alerts)) /\
  (forall a,
     AlertsTable.alertTypes (Some (a :: alerts))
     = Api.type a
       :: List.filter (fun t => negb (String.eqb t (Api.type a)))
            (AlertsTable.alertTypes (Some alerts))) /\
  AlertsTable.alertTypes None = [].
Proof.
  split; [apply alertTypes_members | split; [apply alertTypes_members |]].
  unfold AlertsTable.alertTypes, JsMore.spread_Set.
  split; [| split; [| split]].
  - apply (fold_Set_add_sublist (map Api.type alerts) []).
  - intros before after ->. rewrite map_app, fold_left_app.
    apply fold_Set_add_prefix.
  - intros a. simpl. apply (fold_Set_add_first (Api.type a) (map Api.type alerts) []).
  - reflexivity.
Qed.

(** With an empty search text and every severity admitted, the page shows
    the alerts of the selected type. *)
Lemma filteredAlerts_by_type (t : string) (alerts : list Api.Alert) :
  t <> "all" ->
  AlertsPage.filteredAlerts "" "all" t (Some alerts)
  = Some (List.filter (fun a => String.eqb (Api.type a) t) alerts).
Proof.
  intros Ht. unfold AlertsPage.filteredAlerts. simpl. f_equal.
  apply List.filter_ext. intros a.
  unfold AlertsPage.matchesSearch, AlertsPage.matchesSeverity, AlertsPage.matchesType,
    Js.str_eq. simpl. rewrite includes_empty. simpl.
  destruct (String.eqb_spec t "all"); [contradiction | reflexivity].
Qed.

Lemma list_sum_map_plus {K : Type} (f g : K -> nat) (ks : list K) :
  list_sum (map (fun k => (f k + g k)%nat) ks)
  = (list_sum (map f ks) + list_sum (map g ks))%nat.
Proof. induction ks as [| k ks IH]; simpl; lia. Qed.

Lemma one_key_matches (x : string) (keys : list string) :
  NoDup keys ->
  list_sum (map (fun k => Nat.b2n (String.eqb x k)) keys)
  = Nat.b2n (existsb (String.eqb x) keys).
Proof.
  induction keys as [| k keys IH]; intros Hnd; [reflexivity |].
  apply NoDup_cons in Hnd as [Hk Hnd]. simpl. rewrite (IH Hnd).
  destruct (String.eqb_spec x k) as [-> | Hne]; simpl; [| reflexivity].
  destruct (existsb (String.eqb k) keys) eqn:E; [| reflexivity].
  apply List.existsb_exists in E as [z [Hz E]]. apply String.eqb_eq in E. subst z.
  exfalso. apply Hk, list_elem_of_In, Hz.
Qed.

(** Each element is counted under one entry of a duplicate-free list of
    keys that holds its key. *)
Lemma count_by_key {A : Type} (key : A -> string) (keys : list string) (l : list A) :
  NoDup keys ->
  (forall a, In a l -> In (key a) keys) ->
  list_sum (map (fun k => length (List.filter (fun a => String.eqb (key a) k) l)) keys)
  = length l.
Proof.
  intros Hnd. induction l as [| a l IH]; intros Hin.
  - simpl. clear. induction keys; simpl; auto.
  - rewrite (List.map_ext _
      (fun k => (Nat.b2n (String.eqb (key a) k)
                 + length (List.filter (fun a => String.eqb (key a) k) l))%nat)).
    + rewrite list_sum_map_plus, (one_key_matches _ _ Hnd), IH
        by (intros; apply Hin; right; assumption).
      assert (existsb (String.eqb (key a)) keys = true) as ->; [| reflexivity].
      apply List.existsb_exists. exists (key a).
      split; [apply Hin; left; reflexivity | apply String.eqb_refl].
    + intros k. simpl. destruct (String.eqb (key a) k); reflexivity.
Qed.

(** X4.  Provided no alert has the type 'all', the options of the type
    selector split the alerts: with no search text and every severity
    admitted, each option shows at least one alert, all of that type, and
    the numbers shown under the options add up to the number of alerts. *)
Theorem type_options_split (alerts : list Api.Alert) :
  ~ In "all" (map Api.type alerts) ->
  (forall t, In t (AlertsTable.alertTypes (Some alerts)) ->
     exists shown,
       AlertsPage.filteredAlerts "" "all" t (Some alerts) = Some shown /\
       shown <> [] /\ Forall (fun a => Api.type a = t) shown) /\
  list_sum
    (map (fun t => match AlertsPage.filteredAlerts "" "all" t (Some alerts) with
                   | Some shown => length shown
                   | None => 0%nat
                   end)
       (AlertsTable.alertTypes (Some alerts)))
  = length alerts.
Proof.
  intros Hall.
  destruct (alertTypes_members alerts) as [Hnd Hin].
  assert (Hne : forall t, In t (AlertsTable.alertTypes (Some alerts)) -> t <> "all").
  { intros t Ht ->. apply Hall. apply Hin in Ht as [a [Ha Hta]].
    apply in_map_iff. eauto. }
  split.
  - intros t Ht. rewrite (filteredAlerts_by_type t alerts (Hne t Ht)).
    eexists. split; [reflexivity |]. split.
    + apply Hin in Ht as [a [Ha Hta]]. intros E.
      assert (Hf : In a (List.filter (fun a => String.eqb (Api.type a) t) alerts)).
      { apply List.filter_In. split; [exact Ha | apply String.eqb_eq, Hta]. }
      rewrite E in Hf. destruct Hf.
    + apply List.Forall_forall. intros a Ha.
      apply List.filter_In in Ha as [_ Ha]. apply String.eqb_eq, Ha.
  - rewrite <- (count_by_key Api.type (AlertsTable.alertTypes (Some alerts)) alerts Hnd).
    + f_equal. apply List.map_ext_in. intros t Ht.
      rewrite (filteredAlerts_by_type t alerts (Hne t Ht)). reflexivity.
    + intros a Ha. apply Hin. eauto.
Qed.

Lemma type_options_split_witness :
  (forall t, In t (AlertsTable.alertTypes (Some Sample.inbox)) ->
     exists shown,
       AlertsPage.filteredAlerts "" "all" t (Some Sample.inbox) = Some shown /\
       shown <> [] /\ Forall (fun a => Api.type a = t) shown) /\
  list_sum
    (map (fun t => match AlertsPage.filteredAlerts "" "all" t (Some Sample.inbox) with
                   | Some shown => length shown
                   | None => 0%nat
                   end)
       (AlertsTable.alertTypes (Some Sample.inbox)))
  = length Sample.inbox.
Proof.
  apply (type_options_split Sample.inbox).
  simpl. intros [H | [H | [H | [H | []]]]]; discriminate H.
Defined.

(** ** The customer table: search and risk filter *)


Lemma shown_by_band (searchText : string) (c : Api.Customer) :
  CustomersTable.shown searchText "excellent" c
  = CustomersTable.matchesSearch searchText c && Num.geb (Api.health_score c) 0.8 /\
  CustomersTable.shown searchText "good" c
  = CustomersTable.matchesSearch searchText c
    && (Num.geb (Api.health_score c) 0.6 && Num.ltb (Api.health_score c) 0.8) /\
  CustomersTable.shown searchText "at risk" c
  = CustomersTable.matchesSearch searchText c
    && (Num.geb (Api.health_score c) 0.3 && Num.ltb (Api.health_score c) 0.6) /\
  CustomersTable.shown searchText "critical" c
  = CustomersTable.matchesSearch searchText c && Num.ltb (Api.health_score c) 0.3.
Proof.
  unfold CustomersTable.shown, getRiskLevel.
  generalize (CustomersTable.matchesSearch searchText c). intros m.
  repeat split; cmp_cases; simpl; destruct m; first [reflexivity | exfalso; lra].
Qed.

(** X6.  Under a risk option the table shows exactly the customers that
    match the search and whose score lies in the band of the option
    (excellent from 0.8, good from 0.6, at risk from 0.3, critical below),
    so a customer that matches the search is shown under one option and
    only one. *)
Theorem risk_options_select (searchText : string) (c : Api.Customer) :
  (CustomersTable.shown searchText "excellent" c = true <->
   CustomersTable.matchesSearch searchText c = true /\ (0.8 <= Api.health_score c)%Q) /\
  (CustomersTable.shown searchText "good" c = true <->
   CustomersTable.matchesSearch searchText c = true /\
   (0.6 <= Api.health_score c < 0.8)%Q) /\
  (CustomersTable.shown searchText "at risk" c = true <->
   CustomersTable.matchesSearch searchText c = true /\
   (0.3 <= Api.health_score c < 0.6)%Q) /\
  (CustomersTable.shown searchText "critical" c = true <->
   CustomersTable.matchesSearch searchText c = true /\ (Api.health_score c < 0.3)%Q) /\
  length (List.filter (fun o => CustomersTable.shown searchText o c)
            CustomersTable.risk_options)
  = Nat.b2n (CustomersTable.matchesSearch searchText c).
Proof.
  destruct (shown_by_band searchText c) as [He [Hg [Ha Hc]]].
  unfold CustomersTable.risk_options. cbn [List.filter].
  rewrite He, Hg, Ha, Hc.
  rewrite !andb_true_iff, !geb_true, !ltb_true.
  repeat split; try tauto.
  destruct (CustomersTable.matchesSearch searchText c); [| reflexivity].
  simpl. cmp_cases; simpl; first [reflexivity | exfalso; lra].
Qed.

(** ** Rounded percentages *)

Lemma Math_round_ge (z : Z) (x : Q) :
  (z <= JsMore.Math_round x)%Z <-> (inject_Z z - (1 # 2) <= x)%Q.
Proof.
  unfold JsMore.Math_round. split; intros H.
  - pose proof (Qfloor_le (x + (1 # 2))) as Hf.
    assert (inject_Z z <= inject_Z (Qfloor (x + (1 # 2))))%Q
      by (rewrite <- Zle_Qle; exact H).
    lra.
  - rewrite <- (Qfloor_Z z). apply Qfloor_resp_le. lra.
Qed.

Lemma Math_round_lt (z : Z) (x : Q) :
  (JsMore.Math_round x < z)%Z <-> (x < inject_Z z - (1 # 2))%Q.
Proof.
  pose proof (Math_round_ge z x) as H.
  split; intros Hlt.
  - apply Qnot_le_lt. intros Hle. apply H in Hle. lia.
  - apply Z.nle_gt. intros Hle. apply H in Hle. lra.
Qed.

Lemma Math_round_mono (x y : Q) :
  (x <= y)%Q -> (JsMore.Math_round x <= JsMore.Math_round y)%Z.
Proof. intros H. apply Qfloor_resp_le. lra. Qed.

Lemma progress_status_cases (s : Q) :
  CustomersTable.progress_status s
  = if Num.geb s 0.695 then "success" else if Num.geb s 0.295 then "normal" else "exception".
Proof.
  unfold CustomersTable.progress_status. cbv zeta.
  destruct (Z.geb_spec (JsMore.Math_round (s * 100)) 70) as [H70 | H70].
  - apply Math_round_ge in H70. cmp_cases; first [reflexivity | exfalso; unfold inject_Z in *; lra].
  - apply Math_round_lt in H70.
    destruct (Z.geb_spec (JsMore.Math_round (s * 100)) 30) as [H30 | H30].
    + apply Math_round_ge in H30.
      cmp_cases; first [reflexivity | exfalso; unfold inject_Z in *; lra].
    + apply Math_round_lt in H30.
      cmp_cases; first [reflexivity | exfalso; unfold inject_Z in *; lra].
Qed.

(** X7.  The progress bar of the health score column rounds the score to
    a whole percentage before it picks its status, the tag next to it
    classifies the score itself.  So the bar turns to success from 0.695
    and leaves exception from 0.295: a bar in exception always stands next
    to a Critical tag and a bar in success next to Good or Excellent, while
    a Critical score from 0.295 gets a normal bar.  Both frontends' bars
    pick the same status. *)
Theorem progress_status_vs_label (s : Q) :
  (CustomersTable.progress_status s = "success" <-> (0.695 <= s)%Q) /\
  (CustomersTable.progress_status s = "exception" <-> (s < 0.295)%Q) /\
  (CustomersTable.progress_status s = "exception" ->
   label (getRiskLevel s) = "Critical") /\
  (CustomersTable.progress_status s = "success" ->
   label (getRiskLevel s) = "Good" \/ label (getRiskLevel s) = "Excellent") /\
  ((0.295 <= s < 0.3)%Q ->
   CustomersTable.progress_status s = "normal" /\ label (getRiskLevel s) = "Critical") /\
  DashboardCards.HealthScoreProgress_status s = CustomersTable.progress_status s.
Proof.
  rewrite progress_status_cases. unfold getRiskLevel.
  split; [| split; [| split; [| split; [| split]]]].
  - cmp_cases; split; intros H; first [reflexivity | discriminate H | exfalso; lra | lra].
  - cmp_cases; split; intros H; first [reflexivity | discriminate H | exfalso; lra | lra].
  - cmp_cases; simpl; intros H; first [reflexivity | discriminate H | exfalso; lra].
  - cmp_cases; simpl; intros H; first [discriminate H | exfalso; lra | auto].
  - intros [Hlo Hhi]. cmp_cases; simpl; first [exfalso; lra | auto].
  - rewrite <- progress_status_cases.
    unfold DashboardCards.HealthScoreProgress_status, CustomersTable.progress_status.
    cbv zeta.
    destruct (Z.geb_spec (JsMore.Math_round (s * 100)) 70),
             (Z.geb_spec (JsMore.Math_round (s * 100)) 30),
             (Z.ltb_spec (JsMore.Math_round (s * 100)) 30); first [reflexivity | lia].
Qed.

Section Percentages.
Import PrimFloat.

(** X8.  A score of two decimals is shown as it is stored: for every
    whole number [k] of hundredths from 0 to 100, which are the scores a
    [DECIMAL(3,2)] column holds within [0,1], [formatPercentage] of the
    binary64 number nearest to k/100 shows [k] followed by a percent
    sign. *)
Theorem formatPercentage_hundredths (k : Z) :
  (0 <= k <= 100)%Z ->
  ApiFormat.formatPercentage (PrimFloat.div (Binary64.of_Z k) 100%float)
  = Some (pretty k ++ "%")%string.
Proof.
  intros Hk.
  assert (Hall :
    forallb (fun k =>
               match ApiFormat.formatPercentage
                       (PrimFloat.div (Binary64.of_Z k) 100%float) with
               | Some shown => String.eqb shown (pretty k ++ "%")
               | None => false
               end) (seqZ 0 101) = true) by (vm_compute; reflexivity).
  rewrite List.forallb_forall in Hall. specialize (Hall k).
  destruct (ApiFormat.formatPercentage (PrimFloat.div (Binary64.of_Z k) 100%float))
    as [shown |].
  - f_equal. apply String.eqb_eq, Hall, list_elem_of_In, elem_of_seqZ. lia.
  - discriminate Hall. apply list_elem_of_In, elem_of_seqZ. lia.
Qed.

Lemma formatPercentage_hundredths_witness :
  ApiFormat.formatPercentage (PrimFloat.div (Binary64.of_Z 29) 100%float)
  = Some (pretty 29%Z ++ "%")%string.
Proof. apply (formatPercentage_hundredths 29). lia. Defined.

(** The percentage is rounded after the binary64 product: 0.285 times 100
    is 28.499999999999996 and shows 28%, 1.005 shows 100%; a negative
    value above minus a half percent shows 0%. *)
Example percentages :
  map ApiFormat.formatPercentage [0.296; 0.295; 0.285; 1.005; 1; 0; -0.004]%float
  = [Some "30%"; Some "30%"; Some "28%"; Some "100%"; Some "100%"; Some "0%"; Some "0%"].
Proof. reflexivity. Qed.

(** [Math.round] in binary64: a tie goes up, and the number just below a
    half rounds to 0. *)
Example Math_round_binary64 :
  map JsNumber.Math_round [0.5; 1.5; -0.5; -1.5; 2.4; -2.6; 0.49999999999999994]%float
  = [1; 2; -0; -1; 2; -3; 0]%float.
Proof. reflexivity. Qed.

End Percentages.

(** ** Revenue and customer counts of the cards *)

Lemma fold_sum_acc {A : Type} (f : A -> Q) (l : list A) (a : Q) :
  (fold_left (fun sum x => sum + f x) l a == a + JsMore.sum_by f l)%Q.
Proof.
  unfold JsMore.sum_by. revert a. induction l as [| x l IH]; intros a; simpl.
  - ring.
  - rewrite (IH (a + f x)%Q), (IH (0 + f x)%Q). ring.
Qed.

Lemma sum_by_cons {A : Type} (f : A -> Q) (x : A) (l : list A) :
  (JsMore.sum_by f (x :: l) == f x + JsMore.sum_by f l)%Q.
Proof.
  unfold JsMore.sum_by at 1. simpl. rewrite fold_sum_acc. ring.
Qed.

Lemma sum_by_filter_le {A : Type} (f : A -> Q) (p : A -> bool) (l : list A) :
  Forall (fun x => (0 <= f x)%Q) l ->
  (0 <= JsMore.sum_by f (List.filter p l) <= JsMore.sum_by f l)%Q.
Proof.
  induction 1 as [| x l Hx _ IH]; [unfold JsMore.sum_by; simpl; lra |].
  pose proof (sum_by_cons f x l) as H1.
  pose proof (sum_by_cons f x (List.filter p l)) as H2.
  simpl. destruct (p x); lra.
Qed.

(** X9.  When no customer has a negative MRR, the revenue at risk card
    never shows more than the total MRR card, and neither shows a negative
    amount. *)
Theorem revenueAtRisk_le_totalMrr (customers : list Api.Customer) :
  Forall (fun c => (0 <= Api.mrr c)%Q) customers ->
  (0 <= DashboardCards.revenueAtRisk (Some customers)
     <= CustomersTable.totalMrr (Some customers))%Q.
Proof. intros H. apply sum_by_filter_le, H. Qed.

Lemma revenueAtRisk_le_totalMrr_witness :
  (0 <= DashboardCards.revenueAtRisk (Some Sample.portfolio)
     <= CustomersTable.totalMrr (Some Sample.portfolio))%Q.
Proof.
  apply (revenueAtRisk_le_totalMrr Sample.portfolio).
  unfold Sample.portfolio.
  repeat (apply List.Forall_cons; [unfold Qle; simpl; lia |]). apply List.Forall_nil.
Defined.

(** X10.  The healthy card counts scores from 0.7 and the at-risk card
    scores below 0.6, so a customer with a score from 0.6 up to 0.7 is in
    the total and on neither card; every customer of the critical card is
    also on the at-risk card. *)
Theorem stat_cards_cover (customers : list Api.Customer) :
  (CustomersTable.healthyCustomers (Some customers)
   + CustomersTable.atRisk (Some customers)
   + CustomersTable.count
       (fun c => Num.geb (Api.health_score c) 0.6 && Num.ltb (Api.health_score c) 0.7)
       (Some customers)
   = CustomersTable.totalCustomers (Some customers))%nat /\
  (DashboardCards.criticalRisk (Some customers)
   <= CustomersTable.atRisk (Some customers))%nat.
Proof.
  unfold CustomersTable.healthyCustomers, CustomersTable.atRisk,
    DashboardCards.criticalRisk, CustomersTable.count, CustomersTable.totalCustomers.
  induction customers as [| c cs [IH1 IH2]]; [split; reflexivity |].
  cbn [List.filter].
  split; cmp_cases; cbn [andb length]; first [lia | exfalso; lra].
Qed.

(** ** The high-risk panel and the at-risk table *)

Lemma length_sort_by_key {A : Type} (key : A -> Q) (l : list A) :
  length (JsArray.sort (fun a b => key a - key b)%Q l) = length l.
Proof. apply Permutation_length, sort_Permutation. Qed.

(** X11.  The high-risk panel shows the five customers with the lowest
    scores among those below 0.3, or all of them when they are five or
    fewer: a customer below 0.3 that is left out scores no lower than any
    customer shown. *)
Theorem high_risk_panel_lowest (customers : list Api.Customer) :
  length (criticalCustomers customers)
  = Nat.min 5 (DashboardCards.criticalRisk (Some customers)) /\
  ((DashboardCards.criticalRisk (Some customers) <= 5)%nat ->
   Permutation (criticalCustomers customers)
     (List.filter (fun c => Num.ltb (Api.health_score c) 0.3) customers)) /\
  (forall shown other : Api.Customer,
     In shown (criticalCustomers customers) ->
     In other customers -> (Api.health_score other < 0.3)%Q ->
     ~ In other (criticalCustomers customers) ->
     (Api.health_score shown <= Api.health_score other)%Q).
Proof.
  unfold criticalCustomers, JsArray.slice0, DashboardCards.criticalRisk,
    CustomersTable.count.
  set (critical := List.filter (fun c => Num.ltb (Api.health_score c) 0.3) customers).
  set (sorted := JsArray.sort (fun a b => (Api.health_score a - Api.health_score b)%Q)
                   critical).
  assert (Hperm : Permutation sorted critical) by apply (sort_Permutation Api.health_score).
  split; [| split].
  - rewrite length_take, (Permutation_length Hperm). lia.
  - intros Hle. rewrite take_ge; [exact Hperm |].
    rewrite (Permutation_length Hperm). exact Hle.
  - intros shown other Hshown Hin Hlt Hout.
    assert (Hother : In other sorted).
    { apply (Permutation_in _ (Permutation_sym Hperm)).
      apply List.filter_In. split; [exact Hin | apply ltb_true, Hlt]. }
    rewrite <- (take_drop 5 sorted) in Hother.
    apply in_app_iff in Hother as [Hother | Hother]; [contradiction |].
    pose proof (sort_StronglySorted Api.health_score critical) as Hsorted.
    fold sorted in Hsorted. rewrite <- (take_drop 5 sorted) in Hsorted.
    apply (StronglySorted_app_1_elem_of _ _ _ shown other Hsorted);
      apply list_elem_of_In; assumption.
Qed.

(** The first [n] elements that pass a test are the ones that pass it in
    a first part of the list, which is the whole list unless [n] passed. *)
Lemma take_filter_split {A : Type} (p : A -> bool) (n : nat) (l : list A) :
  exists before after,
    l = (before ++ after)%list /\
    take n (List.filter p l) = List.filter p before /\
    (after = [] \/ length (List.filter p before) = n).
Proof.
  revert n. induction l as [| x l IH]; intros n.
  - exists [], []. simpl. rewrite take_nil. auto.
  - destruct n as [| n].
    + exists [], (x :: l). simpl. auto.
    + simpl. destruct (p x) eqn:Hx.
      * destruct (IH n) as [before [after [-> [Htake Hlen]]]].
        exists (x :: before), after. simpl. rewrite Hx. simpl. rewrite Htake.
        split; [reflexivity | split; [reflexivity |]].
        destruct Hlen as [-> | <-]; auto.
      * destruct (IH (S n)) as [before [after [-> [Htake Hlen]]]].
        exists (x :: before), after. simpl. rewrite Hx.
        split; [reflexivity | split; [exact Htake | exact Hlen]].
Qed.

(** X12.  The at-risk table of the dashboard shows the first five
    customers below 0.6 in the order they were received (it does not sort
    them): as many rows as the at-risk card counts, five at most, and
    they are the customers below 0.6 of a first part of the list, which is
    the whole list unless the table is full. *)
Theorem at_risk_table_rows (customers : list Api.Customer) :
  sublist (DashboardCards.atRiskCustomers (Some customers)) customers /\
  length (DashboardCards.atRiskCustomers (Some customers))
  = Nat.min 5 (CustomersTable.atRisk (Some customers)) /\
  Forall (fun c => (Api.health_score c < 0.6)%Q)
    (DashboardCards.atRiskCustomers (Some customers)) /\
  DashboardCards.atRiskCustomers (Some customers)
    `prefix_of` List.filter (fun c => Num.ltb (Api.health_score c) 0.6) customers /\
  (exists before after,
     customers = (before ++ after)%list /\
     DashboardCards.atRiskCustomers (Some customers)
     = List.filter (fun c => Num.ltb (Api.health_score c) 0.6) before /\
     (after = [] \/ length (DashboardCards.atRiskCustomers (Some customers)) = 5%nat)) /\
  DashboardCards.atRiskCustomers None = [].
Proof.
  unfold DashboardCards.atRiskCustomers, JsArray.slice0, CustomersTable.atRisk,
    CustomersTable.count.
  split; [| split; [| split; [| split; [| split]]]].
  - etransitivity; [apply sublist_take | apply filter_sublist].
  - apply length_take.
  - apply List.Forall_forall. intros c Hc.
    apply list_elem_of_In, subseteq_take, list_elem_of_In in Hc.
    apply List.filter_In in Hc as [_ Hc]. apply ltb_true, Hc.
  - apply prefix_take.
  - destruct (take_filter_split (fun c => Num.ltb (Api.health_score c) 0.6) 5 customers)
      as [before [after [E [Htake Hlen]]]].
    exists before, after. rewrite Htake. auto.
  - reflexivity.
Qed.

(** ** The lookup of an action by its id *)

Lemma find_app_first {A : Type} (p : A -> bool) (l1 l2 : list A) :
  List.find p (l1 ++ l2)
  = match List.find p l1 with
    | Some a => Some a
    | None => List.find p l2
    end.
Proof.
  induction l1 as [| x l1 IH]; simpl; [reflexivity |].
  destruct (p x); [reflexivity | exact IH].
Qed.

(** X13.  The lookup of an action by id answers [null] while the
    dashboard has not loaded and never afterwards; it answers [undefined]
    exactly when no list of the dashboard holds an action of that id, and
    otherwise an action of that id from one of the lists, one from the
    critical list whenever that list has one. *)
Theorem findActionById_finds (d : ActionsDashboard.ActionsDashboard) (actionId : string) :
  ActionsDashboard.findActionById None actionId = JsMore.null /\
  ActionsDashboard.findActionById (Some d) actionId <> JsMore.null /\
  (ActionsDashboard.findActionById (Some d) actionId = JsMore.undefined <->
   forall a, In a (ActionsDashboard.allActions d) -> ActionsPage.id a <> actionId) /\
  (forall a, ActionsDashboard.findActionById (Some d) actionId = JsMore.value a ->
     ActionsPage.id a = actionId /\ In a (ActionsDashboard.allActions d)) /\
  (forall c, In c (ActionsDashboard.critical (ActionsDashboard.by_urgency d)) ->
     ActionsPage.id c = actionId ->
     exists a, ActionsDashboard.findActionById (Some d) actionId = JsMore.value a /\
               In a (ActionsDashboard.critical (ActionsDashboard.by_urgency d))).
Proof.
  unfold ActionsDashboard.findActionById, JsMore.find, Js.str_eq.
  split; [reflexivity |]. split; [| split; [| split]].
  - destruct (List.find _ _); discriminate.
  - destruct (List.find _ _) as [a |] eqn:E.
    + split; [discriminate |]. intros H. exfalso.
      apply List.find_some in E as [Hin Heq]. apply String.eqb_eq in Heq.
      apply (H a Hin Heq).
    + split; [| reflexivity]. intros _ a Hin Heq.
      pose proof (List.find_none _ _ E a Hin) as Hf. simpl in Hf.
      rewrite Heq, String.eqb_refl in Hf. discriminate.
  - intros a H. destruct (List.find _ _) as [a' |] eqn:E; [| discriminate].
    injection H as ->. apply List.find_some in E as [Hin Heq].
    apply String.eqb_eq in Heq. auto.
  - intros c Hc Hid. unfold ActionsDashboard.allActions. rewrite find_app_first.
    destruct (List.find _ (ActionsDashboard.critical _)) as [a |] eqn:E.
    + exists a. split; [reflexivity |]. apply List.find_some in E. tauto.
    + pose proof (List.find_none _ _ E c Hc) as Hf. simpl in Hf.
      rewrite Hid, String.eqb_refl in Hf. discriminate.
Qed.

(** ** The text of an alert type *)

Lemma toUpperCase_app (a b : string) :
  JsMore.toUpperCase (a ++ b) = (JsMore.toUpperCase a ++ JsMore.toUpperCase b)%string.
Proof. induction a as [| c a IH]; simpl; [reflexivity | rewrite IH; reflexivity]. Qed.

Lemma includes_underscore_cons (c : ascii) (a : string) :
  Js.includes (String c a) "_" = false ->
  Ascii.eqb c "_" = false /\ Js.includes a "_" = false.
Proof.
  simpl. intros H. apply orb_false_iff in H as [Hp Hi]. split; [| exact Hi].
  destruct (ascii_dec "_" c) as [<- | Hne].
  - destruct a; discriminate Hp.
  - apply Ascii.eqb_neq. congruence.
Qed.

Lemma replace_first_only (a b : string) :
  Js.includes a "_" = false ->
  JsMore.replace "_" " " a = a /\
  JsMore.replace "_" " " (a ++ "_" ++ b) = (a ++ " " ++ b)%string.
Proof.
  induction a as [| c a IH]; intros H; [split; reflexivity |].
  apply includes_underscore_cons in H as [Hc Ha]. destruct (IH Ha) as [IH1 IH2].
  simpl. rewrite Hc. simpl in IH2. rewrite IH1, IH2. split; reflexivity.
Qed.

(** X14.  The text of an alert type replaces the first underscore only
    and puts the rest in upper case: a type without underscore is just
    upper-cased, and of a type with several underscores all but the first
    are still underscores in the text. *)
Theorem type_label_first_underscore (a b : string) :
  Js.includes a "_" = false ->
  AlertsTable.type_label a = JsMore.toUpperCase a /\
  AlertsTable.type_label (a ++ "_" ++ b)
  = (JsMore.toUpperCase a ++ " " ++ JsMore.toUpperCase b)%string.
Proof.
  intros H. unfold AlertsTable.type_label.
  destruct (replace_first_only a b H) as [-> ->].
  split; [reflexivity |]. rewrite toUpperCase_app. reflexivity.
Qed.

Lemma type_label_first_underscore_witness :
  AlertsTable.type_label "churn" = JsMore.toUpperCase "churn" /\
  AlertsTable.type_label ("churn" ++ "_" ++ "risk_high")
  = (JsMore.toUpperCase "churn" ++ " " ++ JsMore.toUpperCase "risk_high")%string.
Proof. apply (type_label_first_underscore "churn" "risk_high"). reflexivity. Defined.

Example type_labels :
  AlertsTable.type_label "churn_risk" = "CHURN RISK" /\
  AlertsTable.type_label "churn_risk_high" = "CHURN RISK_HIGH".
Proof. split; reflexivity. Qed.

(** ** Keys and identity of the rows of the health score table *)

Lemma omap_cons {A B : Type} (f : A -> option B) (x : A) (l : list A) :
  omap f (x :: l) = match f x with Some y => y :: omap f l | None => omap f l end.
Proof. reflexivity. Qed.

Lemma sublist_map {A B : Type} (f : A -> B) (l1 l2 : list A) :
  sublist l1 l2 -> sublist (map f l1) (map f l2).
Proof. induction 1; simpl; constructor; assumption. Qed.

Lemma sublist_omap {A B : Type} (f : A -> option B) (l1 l2 : list A) :
  sublist l1 l2 -> sublist (omap f l1) (omap f l2).
Proof.
  induction 1 as [| x l1 l2 _ IH | x l1 l2 _ IH]; [constructor | |];
    rewrite ?omap_cons; destruct (f x);
    first [apply sublist_skip, IH | apply sublist_cons, IH | exact IH].
Qed.

Lemma lookup_map {A B : Type} (f : A -> B) (l : list A) (i : nat) (x : A) :
  l !! i = Some x -> map f l !! i = Some (f x).
Proof.
  revert i. induction l as [| y l IH]; intros [| i] H; try discriminate; simpl in *.
  - congruence.
  - apply IH, H.
Qed.

Module SchemaKeyFacts.
Import Schema SchemaKeys.

Lemma update_scores_identity (where_ : Row -> bool) (set : Row -> Scores Q) (t t' : Table) :
  update_scores where_ set t = inr t' ->
  Forall2 (fun r r' => same_identity r r' /\ (where_ r = false -> r' = r)) t t'.
Proof.
  revert t'. induction t as [| r rest IH]; simpl; intros t' H.
  - injection H as <-. constructor.
  - unfold bind, ret in H. destruct (where_ r) eqn:Hw.
    + destruct (checked_scores (set r)) as [e | z]; [discriminate |].
      destruct (update_scores where_ set rest) as [e | rest']; [discriminate |].
      injection H as <-. constructor; [| apply IH; reflexivity].
      split; [repeat split | intros Hf; congruence].
    + destruct (update_scores where_ set rest) as [e | rest']; [discriminate |].
      injection H as <-. constructor; [| apply IH; reflexivity].
      split; [repeat split | reflexivity].
Qed.

Lemma same_identity_keys (t t' : Table) :
  Forall2 same_identity t t' ->
  map id t' = map id t /\ omap customer_timestamp t' = omap customer_timestamp t.
Proof.
  induction 1 as [| r r' t t' [Hid [Hc [Ha _]]] _ [IH1 IH2]]; [split; reflexivity |].
  split.
  - simpl. rewrite Hid, IH1. reflexivity.
  - assert (Hk : customer_timestamp r' = customer_timestamp r)
      by (unfold customer_timestamp; rewrite Hc, Ha; reflexivity).
    rewrite !omap_cons, Hk, IH2. reflexivity.
Qed.

(** Two rows collide on the unique index when both have a key, the same. *)
Lemma same_customer_timestamp_spec (c : option string) (at_ : option Z) (r : Row) :
  same_customer_timestamp c at_ r = true <->
  exists k, c = Some (fst k) /\ at_ = Some (snd k) /\ customer_timestamp r = Some k.
Proof.
  unfold same_customer_timestamp, customer_timestamp.
  destruct c as [a |], (customer_id r) as [b |], at_ as [x |], (calculated_at r) as [y |];
    try (split; [discriminate | intros [k [H1 [H2 H3]]]; discriminate]).
  rewrite andb_true_iff, String.eqb_eq, Z.eqb_eq. split.
  - intros [-> ->]. exists (b, x). auto.
  - intros [[k1 k2] [H1 [H2 H3]]]. simpl in *. split; congruence.
Qed.

Lemma no_collision (c : option string) (at_ : option Z) (t : Table) (k : string * Z) :
  existsb (same_customer_timestamp c at_) t = false ->
  c = Some (fst k) -> at_ = Some (snd k) ->
  ~ In k (omap customer_timestamp t).
Proof.
  intros Hnone Hc Hat Hin. apply list_elem_of_In, list_elem_of_omap in Hin as [r [Hr Hk]].
  assert (existsb (same_customer_timestamp c at_) t = true); [| congruence].
  apply List.existsb_exists. exists r. split; [apply list_elem_of_In, Hr |].
  apply same_customer_timestamp_spec. exists k. auto.
Qed.

Lemma no_same_id (i : string) (t : Table) :
  existsb (fun r => String.eqb (id r) i) t = false -> ~ In i (map id t).
Proof.
  intros Hnone Hin. apply in_map_iff in Hin as [r [Hr Hin]].
  assert (existsb (fun r => String.eqb (id r) i) t = true); [| congruence].
  apply List.existsb_exists. exists r. split; [exact Hin | apply String.eqb_eq, Hr].
Qed.

Lemma insert_keys (t t' : Table) (v : Values) :
  insert t v = inr t' -> distinct_keys t -> distinct_keys t'.
Proof.
  unfold insert, bind, ret. intros H [Hid Hct].
  destruct (cast_scores (v_scores v)) as [e | z]; [discriminate |].
  destruct (v_model_version v) as [mv |]; [| discriminate].
  destruct (check_columns (columns z)) as [e | []]; [discriminate |].
  destruct (existsb (fun r => String.eqb (id r) (v_id v)) t) eqn:Epk; [discriminate |].
  destruct (existsb (same_customer_timestamp (v_customer_id v) (v_calculated_at v)) t)
    eqn:Euq; [discriminate |].
  injection H as <-. split.
  - rewrite map_app. apply NoDup_app. split; [exact Hid |]. split.
    + intros i Hi Hi'. simpl in Hi'. apply list_elem_of_In in Hi'.
      destruct Hi' as [<- | []]. apply (no_same_id _ _ Epk), list_elem_of_In, Hi.
    + apply NoDup_singleton.
  - rewrite omap_app. apply NoDup_app. split; [exact Hct |]. split.
    + intros k Hk Hk'. rewrite omap_cons in Hk'. unfold customer_timestamp in Hk' at 1.
      simpl in Hk'.
      destruct (v_customer_id v) as [c |] eqn:Ec;
        [| apply list_elem_of_In in Hk'; destruct Hk'].
      destruct (v_calculated_at v) as [a |] eqn:Ea;
        [| apply list_elem_of_In in Hk'; destruct Hk'].
      apply list_elem_of_In in Hk'. destruct Hk' as [<- | []].
      apply (no_collision _ _ _ (c, a) Euq); [reflexivity | reflexivity |].
      apply list_elem_of_In, Hk.
    + rewrite omap_cons. unfold customer_timestamp. simpl.
      destruct (v_customer_id v), (v_calculated_at v); simpl;
        first [apply NoDup_singleton | apply NoDup_nil_2].
Qed.

Lemma update_scores_keys (where_ : Row -> bool) (set : Row -> Scores Q) (t t' : Table) :
  update_scores where_ set t = inr t' -> distinct_keys t -> distinct_keys t'.
Proof.
  intros H [Hid Hct]. apply update_scores_identity in H.
  assert (H' : Forall2 same_identity t t')
    by (eapply Forall2_impl; [exact H | intros ? ? [? _]; assumption]).
  destruct (same_identity_keys _ _ H') as [E1 E2].
  unfold distinct_keys. rewrite E1, E2. split; assumption.
Qed.

(** What the test of an [UPDATE] establishes. *)
Lemma unique_rows_keys (t : Table) :
  unique_rows same_id t = true -> unique_rows same_key t = true -> distinct_keys t.
Proof.
  unfold distinct_keys. induction t as [| r rest IH].
  - intros _ _. split; constructor.
  - cbn [unique_rows]. rewrite !andb_true_iff, !negb_true_iff.
    intros [Hid Hids] [Hkey Hkeys].
    destruct (IH Hids Hkeys) as [IH1 IH2]. split.
    + cbn [map]. apply NoDup_cons. split; [| exact IH1].
      intros Hin. apply list_elem_of_In in Hin. revert Hin. apply no_same_id, Hid.
    + rewrite omap_cons. destruct (customer_timestamp r) as [k |] eqn:Ek; [| exact IH2].
      apply NoDup_cons. split; [| exact IH2].
      intros Hin. apply list_elem_of_In in Hin. revert Hin.
      unfold same_key in Hkey. unfold customer_timestamp in Ek.
      destruct (customer_id r) as [c |]; [| discriminate].
      destruct (calculated_at r) as [a |]; [| discriminate].
      injection Ek as <-. apply (no_collision _ _ _ (c, a) Hkey); reflexivity.
Qed.

Lemma update_keys (where_ : Row -> bool) (set : Row -> Values) (t t' : Table) :
  update where_ set t = inr t' -> distinct_keys t'.
Proof.
  unfold update, bind, ret. intros H.
  destruct (update_rows where_ set t) as [e | u]; [discriminate |].
  destruct (unique_rows same_id u) eqn:Eid; [| discriminate].
  destruct (unique_rows same_key u) eqn:Ekey; [| discriminate].
  injection H as <-. apply unique_rows_keys; assumption.
Qed.

Lemma delete_keys (where_ : Row -> bool) (t : Table) :
  distinct_keys t -> distinct_keys (delete where_ t).
Proof.
  intros [Hid Hct]. unfold delete. split.
  - apply (sublist_NoDup _ _ Hid), sublist_map, filter_sublist.
  - apply (sublist_NoDup _ _ Hct), sublist_omap, filter_sublist.
Qed.

Lemma run_keys (ss : list Statement) (t : Table) :
  distinct_keys t -> distinct_keys (run t ss).
Proof.
  revert t. induction ss as [| s ss IH]; intros t Ht; [exact Ht |].
  unfold run in *. simpl. apply IH.
  destruct (exec t s) as [e | t'] eqn:E; [exact Ht |].
  destruct s as [v | w f | w f | w]; simpl in E.
  - apply (insert_keys _ _ _ E Ht).
  - apply (update_scores_keys _ _ _ _ E Ht).
  - apply (update_keys _ _ _ _ E).
  - injection E as <-. apply delete_keys, Ht.
Qed.

(** Rows at two places of a table with distinct keys have distinct keys. *)
Lemma distinct_keys_lookup (t : Table) (i j : nat) (r1 r2 : Row) (k : string * Z) :
  NoDup (omap customer_timestamp t) ->
  t !! i = Some r1 -> t !! j = Some r2 -> i <> j ->
  customer_timestamp r1 = Some k -> customer_timestamp r2 <> Some k.
Proof.
  revert i j. induction t as [| r t IH]; intros i j Hct H1 H2 Hij Hk1 Hk2;
    [discriminate |].
  rewrite omap_cons in Hct.
  assert (Hin : forall n r', t !! n = Some r' -> customer_timestamp r' = Some k ->
            k ∈ omap customer_timestamp t).
  { intros n r' Hn Hr'. apply list_elem_of_omap. exists r'.
    split; [eapply list_elem_of_lookup_2, Hn | exact Hr']. }
  destruct i as [| i], j as [| j]; simpl in H1, H2.
  - congruence.
  - injection H1 as ->. rewrite Hk1 in Hct. apply NoDup_cons in Hct as [Hnot _].
    apply Hnot, (Hin j r2 H2 Hk2).
  - injection H2 as ->. rewrite Hk2 in Hct. apply NoDup_cons in Hct as [Hnot _].
    apply Hnot, (Hin i r1 H1 Hk1).
  - apply (IH i j); try assumption; [| congruence].
    destruct (customer_timestamp r); [apply NoDup_cons in Hct; tauto | exact Hct].
Qed.

End SchemaKeyFacts.

(** X15.  Whatever statements are run on [customer_health_scores], an
    [UPDATE] of its key columns included, no two of its rows share an
    [id], and no two rows of one customer share a [calculated_at] that is
    not NULL; rows without a customer or without a time stamp are not held
    to the latter. *)
Theorem health_score_keys_distinct (ss : list Schema.Statement) (i j : nat)
    (r1 r2 : Schema.Row) :
  Schema.run [] ss !! i = Some r1 ->
  Schema.run [] ss !! j = Some r2 ->
  i <> j ->
  Schema.id r1 <> Schema.id r2 /\
  (forall c at_,
     Schema.customer_id r1 = Some c -> Schema.customer_id r2 = Some c ->
     Schema.calculated_at r1 = Some at_ -> Schema.calculated_at r2 <> Some at_).
Proof.
  intros H1 H2 Hij.
  assert (Hk : SchemaKeys.distinct_keys (Schema.run [] ss)).
  { apply SchemaKeyFacts.run_keys. split; constructor. }
  destruct Hk as [Hid Hct]. split.
  - intros E. apply Hij.
    apply (NoDup_lookup _ i j (Schema.id r1) Hid);
      [apply lookup_map, H1 | rewrite E; apply lookup_map, H2].
  - intros c at_ Hc1 Hc2 Ha1 Ha2.
    apply (SchemaKeyFacts.distinct_keys_lookup _ i j r1 r2 (c, at_) Hct H1 H2 Hij);
      unfold SchemaKeys.customer_timestamp; [rewrite Hc1, Ha1 | rewrite Hc2, Ha2];
      reflexivity.
Qed.

Lemma health_score_keys_distinct_witness :
  Schema.id (Schema.mkRow "r1" (Some "c1")
               (Schema.mkScores (Some 50%Z) None None None None None None)
               (Some 10%Z) "v1")
  <> Schema.id (Schema.mkRow "r3" (Some "c1")
                  (Schema.mkScores (Some 70%Z) None None None None None None)
                  (Some 11%Z) "v1") /\
  (forall c at_,
     Schema.customer_id
       (Schema.mkRow "r1" (Some "c1")
          (Schema.mkScores (Some 50%Z) None None None None None None)
          (Some 10%Z) "v1") = Some c ->
     Schema.customer_id
       (Schema.mkRow "r3" (Some "c1")
          (Schema.mkScores (Some 70%Z) None None None None None None)
          (Some 11%Z) "v1") = Some c ->
     Schema.calculated_at
       (Schema.mkRow "r1" (Some "c1")
          (Schema.mkScores (Some 50%Z) None None None None None None)
          (Some 10%Z) "v1") = Some at_ ->
     Schema.calculated_at
       (Schema.mkRow "r3" (Some "c1")
          (Schema.mkScores (Some 70%Z) None None None None None None)
          (Some 11%Z) "v1") <> Some at_).
Proof.
  apply (health_score_keys_distinct
           [ Schema.Insert (Sample.score_row "r1" 0.5 10);
             Schema.Insert (Sample.score_row "r1" 0.6 11);
             Schema.Insert (Sample.score_row "r3" 0.7 12);
             Schema.Update (fun r => String.eqb (Schema.id r) "r3")
               (fun _ => Sample.score_row "r3" 0.7 10);
             Schema.Update (fun r => String.eqb (Schema.id r) "r3")
               (fun _ => Sample.score_row "r3" 0.7 11) ] 0 1);
    [reflexivity | reflexivity | discriminate].
Defined.

(** The unique index does not reach rows without a time stamp: one
    customer may have two of them. *)
Example undated_rows_repeat :
  map (fun r => (Schema.id r, Schema.customer_id r, Schema.calculated_at r))
    (Schema.run []
       [ Schema.Insert (Sample.undated_row "r1" 0.5);
         Schema.Insert (Sample.undated_row "r2" 0.6) ])
  = [("r1", Some "c1", None); ("r2", Some "c1", None)].
Proof. reflexivity. Qed.

(** An update that would give two rows of a customer one time stamp is
    refused, and so is one that would give two rows one [id]. *)
Example key_updates_refused :
  let t := Schema.run []
             [ Schema.Insert (Sample.score_row "r1" 0.5 10);
               Schema.Insert (Sample.score_row "r2" 0.6 11) ] in
  Schema.exec t (Schema.Update (fun _ => true) (fun r => Sample.score_row (Schema.id r) 0.5 12))
  = inl (Schema.unique_violation "unique_customer_health_timestamp") /\
  Schema.exec t (Schema.Update (fun r => String.eqb (Schema.id r) "r2")
                   (fun r => Sample.score_row "r1" 0.6 11))
  = inl (Schema.unique_violation "customer_health_scores_pkey").
Proof. split; reflexivity. Qed.

(** ** The rule-based score and the alert rules together *)

Section Binary64Score.
Import PrimFloat Prototype64.

(** The tests of the two functions, one case each. *)
Ltac float_cases c :=
  destruct (usage_score c <? 0.3)%float eqn:Hu3;
  destruct (usage_score c <? 0.6)%float eqn:Hu6;
  destruct (Z.ltb_spec 5 (support_tickets c));
  destruct (Z.ltb_spec 2 (support_tickets c));
  destruct (Z.ltb_spec 30 (last_login_days c));
  destruct (Z.ltb_spec 7 (last_login_days c));
  try lia.

(** X17.  In binary64 the rule-based health score lies between 0 and 1
    and within 2^-53 of the whole number of tenths that exact arithmetic
    gives, without always being the binary64 number nearest to it: with no
    usage penalty, more than five tickets and more than thirty days
    without a login it is 0.29999999999999993, which is below 0.3.  It is
    0 only for a customer with usage below 0.3, more than five tickets and
    more than thirty days without a login: the clamp at 0 acts in that
    case alone. *)
Theorem calculate_health_score_tenths (c : Customer) :
  (exists q,
     Binary64.to_Q (calculate_health_score c) = Some q /\
     (Qabs (q - inject_Z (exact_tenths c) / 10) <= 1 # 9007199254740992)%Q) /\
  ((0 <=? calculate_health_score c)%float = true /\
   (calculate_health_score c <=? 1)%float = true) /\
  (calculate_health_score c = 0%float <->
   (usage_score c <? 0.3)%float = true /\ (5 < support_tickets c)%Z /\
   (30 < last_login_days c)%Z) /\
  ((usage_score c <? 0.3)%float = false -> (usage_score c <? 0.6)%float = false ->
   (5 < support_tickets c)%Z -> (30 < last_login_days c)%Z ->
   calculate_health_score c = 0.29999999999999993%float /\
   (calculate_health_score c <? 0.3)%float = true).
Proof.
  unfold calculate_health_score, exact_tenths, penalty_tenths, max0. cbv zeta.
  split; [| split; [| split]].
  - float_cases c; (eexists; split; [reflexivity | apply Qle_bool_iff; reflexivity]).
  - float_cases c; split; reflexivity.
  - float_cases c;
      (split; [intros E; first [discriminate E | repeat split; first [reflexivity | lia]]
              | intros [E1 [E2 E3]]; first [reflexivity | discriminate E1 | lia]]).
  - intros -> -> Ht Hd.
    destruct (Z.ltb_spec 5 (support_tickets c)); [| lia].
    destruct (Z.ltb_spec 30 (last_login_days c)); [| lia].
    split; reflexivity.
Qed.

(** X18.  When the health score of a customer is the rule-based one as
    binary64 computes it, the churn rule fires exactly in two cases: the
    last login is more than 30 days back and the usage is below 0.3 or the
    tickets are more than five; or the usage is below 0.3, the tickets are
    more than five and the last login is more than 7 days back.  The first
    case takes in customers with no usage penalty at all: their penalties
    add up to 0.7, and binary64 leaves 0.29999999999999993 of the score. *)
Theorem churn_rule_on_computed_score (c : Customer) :
  health_score c = calculate_health_score c ->
  (raises "churn_risk" (generate_alerts c) = true <->
   ((30 < last_login_days c)%Z /\
    ((usage_score c <? 0.3)%float = true \/ (5 < support_tickets c)%Z)) \/
   ((usage_score c <? 0.3)%float = true /\ (5 < support_tickets c)%Z /\
    (7 < last_login_days c)%Z)).
Proof.
  intros H. unfold raises, generate_alerts. rewrite H.
  unfold calculate_health_score, max0. cbv zeta.
  destruct (Z.ltb_spec 14 (last_login_days c));
    float_cases c; simpl;
    (split; [intros E; first [discriminate E | tauto | lia]
            | intros [[E1 [E2 | E2]] | [E1 [E2 E3]]];
              first [reflexivity | discriminate | lia]]).
Qed.

Lemma churn_rule_on_computed_score_witness :
  raises "churn_risk"
    (generate_alerts (mkCustomer "Initrode" 0.9 6 31 0.29999999999999993)) = true <->
  ((30 < 31)%Z /\ ((0.9 <? 0.3)%float = true \/ (5 < 6)%Z)) \/
  ((0.9 <? 0.3)%float = true /\ (5 < 6)%Z /\ (7 < 31)%Z).
Proof.
  apply (churn_rule_on_computed_score (mkCustomer "Initrode" 0.9 6 31 0.29999999999999993)).
  reflexivity.
Defined.

(** The scores of customers with six tickets as binary64 computes them,
    by usage (0.1, 0.5, 0.9) and days without a login (31, 8, 0). *)
Example scores_with_many_tickets :
  map (fun usage =>
         map (fun days => calculate_health_score (mkCustomer "" usage 6 days 0))
           [31; 8; 0]%Z)
    [0.1; 0.5; 0.9]%float
  = [ [0; 0.09999999999999998; 0.3];
      [0.09999999999999998; 0.3; 0.5];
      [0.29999999999999993; 0.49999999999999994; 0.7] ]%float.
Proof. reflexivity. Qed.

End Binary64Score.

(** X19.  The alert rules raise at most one alert of each type, a churn
    alert before an engagement alert, and never an alert without suggested
    actions; they raise none exactly for a health score of 0.3 or more and
    a last login at most 14 days back. *)
Theorem generate_alerts_shape (c : Api.Customer) :
  sublist (map type (generate_alerts c)) ["churn_risk"; "engagement_risk"] /\
  NoDup (map type (generate_alerts c)) /\
  Forall (fun a => length (actions a) = 2%nat) (generate_alerts c) /\
  (generate_alerts c = [] <->
   (0.3 <= Api.health_score c)%Q /\ (Api.last_login_days c <= 14)%Z).
Proof.
  rewrite generate_alerts_cases.
  destruct (Num.ltb (Api.health_score c) 0.3) eqn:Hc;
    [apply ltb_true in Hc | apply ltb_false in Hc];
    destruct (Z.ltb_spec 14 (Api.last_login_days c)) as [Hd | Hd]; simpl.
  all: split; [repeat constructor |].
  all: split; [repeat constructor; rewrite ?list_elem_of_In; simpl; intuition discriminate |].
  all: split; [repeat constructor |].
  all: split; [intros E; first [discriminate E | split; [lra | lia] | auto]
              | intros [H1 H2]; first [reflexivity | exfalso; lra | exfalso; lia]].
Qed.

(** ** The tags of the customer table against the rules *)

(** X20.  The last login tag is red exactly when the engagement rule
    fires.  The colour of the ticket tag fixes the ticket penalty: two
    customers with the same usage and last login whose ticket tags have the
    same colour have the same score; and so have two customers with the
    same usage and tickets whose last login tags are both green. *)
Theorem tags_follow_rules (c : Api.Customer) :
  (CustomersTable.last_login_tag_color (Api.last_login_days c) = "red" <->
   In "engagement_risk" (map type (generate_alerts c))) /\
  (forall c' : Api.Customer,
     Api.usage_score c' = Api.usage_score c ->
     Api.last_login_days c' = Api.last_login_days c ->
     CustomersTable.tickets_tag_color (Api.support_tickets c')
     = CustomersTable.tickets_tag_color (Api.support_tickets c) ->
     calculate_health_score c' = calculate_health_score c) /\
  (forall c' : Api.Customer,
     Api.usage_score c' = Api.usage_score c ->
     Api.support_tickets c' = Api.support_tickets c ->
     CustomersTable.last_login_tag_color (Api.last_login_days c') = "green" ->
     CustomersTable.last_login_tag_color (Api.last_login_days c) = "green" ->
     calculate_health_score c' = calculate_health_score c).
Proof.
  split; [| split].
  - rewrite generate_alerts_cases. unfold CustomersTable.last_login_tag_color.
    destruct (Z.gtb_spec (Api.last_login_days c) 14) as [H | H];
      destruct (Z.ltb_spec 14 (Api.last_login_days c)) as [H' | H']; try lia.
    + split; [intros _ | reflexivity]. rewrite map_app, in_app_iff. right. simpl. auto.
    + rewrite app_nil_r.
      split; [destruct (_ >? 7)%Z; discriminate |].
      destruct (Num.ltb _ _); simpl; intuition discriminate.
  - intros c' Hu Hd. unfold CustomersTable.tickets_tag_color, calculate_health_score.
    cbv zeta. rewrite Hu, Hd.
    destruct (Z.gtb_spec (Api.support_tickets c') 5), (Z.gtb_spec (Api.support_tickets c') 2),
             (Z.gtb_spec (Api.support_tickets c) 5), (Z.gtb_spec (Api.support_tickets c) 2);
      intros E; try discriminate E; try lia;
      destruct (Z.ltb_spec 5 (Api.support_tickets c')), (Z.ltb_spec 2 (Api.support_tickets c')),
               (Z.ltb_spec 5 (Api.support_tickets c)), (Z.ltb_spec 2 (Api.support_tickets c));
      first [lia | reflexivity].
  - intros c' Hu Ht. unfold CustomersTable.last_login_tag_color, calculate_health_score.
    cbv zeta. rewrite Hu, Ht.
    destruct (Z.gtb_spec (Api.last_login_days c') 14), (Z.gtb_spec (Api.last_login_days c') 7),
             (Z.gtb_spec (Api.last_login_days c) 14), (Z.gtb_spec (Api.last_login_days c) 7);
      intros E E'; try discriminate E; try discriminate E'; try lia;
      destruct (Z.ltb_spec 30 (Api.last_login_days c')), (Z.ltb_spec 7 (Api.last_login_days c')),
               (Z.ltb_spec 30 (Api.last_login_days c)), (Z.ltb_spec 7 (Api.last_login_days c));
      first [lia | reflexivity].
Qed.

(** ** Severity by risk score *)

Section SeverityByRisk.
Context {RiskFactors Actions : Type}.
Variable get_next_best_actions : string -> RiskFactors -> Actions.

(** X21.  Once a risk score raises an alert, every higher score raises
    one too, of a severity at least as grave (a critical alert stays
    critical, a high one becomes no less than high); the severity is a
    value of the database enumeration and never low. *)
Theorem generate_alert_severity_monotone (customer_id : string) (r1 r2 : Q)
    (rf : RiskFactors) (a1 : Architecture.Alert RiskFactors Actions) :
  (r1 <= r2)%Q ->
  Architecture.generate_alert get_next_best_actions customer_id r1 rf = inr a1 ->
  exists a2,
    Architecture.generate_alert get_next_best_actions customer_id r2 rf = inr a2 /\
    (Architecture.severity a1 = "critical" -> Architecture.severity a2 = "critical") /\
    (Architecture.severity a1 = "high" ->
     Architecture.severity a2 = "high" \/ Architecture.severity a2 = "critical") /\
    In (Architecture.severity a1) Schema.alert_severity /\
    Architecture.severity a1 <> "low".
Proof.
  unfold Architecture.generate_alert, Architecture.severity_and_urgency.
  intros Hle H. revert H.
  cmp_cases; intros H; try discriminate H; try (exfalso; lra);
    injection H as <-; eexists; (split; [reflexivity |]); simpl;
    (split; [intros E; first [reflexivity | discriminate E] |]);
    (split; [intros E; first [discriminate E | auto] |]);
    (split; [auto 6 | discriminate]).
Qed.

End SeverityByRisk.

Lemma generate_alert_severity_monotone_witness :
  exists a2,
    Architecture.generate_alert (fun _ (rf : list string) => rf) "CUST001" 0.9
      ["declining_usage_trend"] = inr a2 /\
    (Architecture.severity
       (Architecture.mkAlert _ _ "CUST001" "high" "within_24h"
          ["declining_usage_trend"] ["declining_usage_trend"]) = "critical" ->
     Architecture.severity a2 = "critical") /\
    (Architecture.severity
       (Architecture.mkAlert _ _ "CUST001" "high" "within_24h"
          ["declining_usage_trend"] ["declining_usage_trend"]) = "high" ->
     Architecture.severity a2 = "high" \/ Architecture.severity a2 = "critical") /\
    In (Architecture.severity
          (Architecture.mkAlert _ _ "CUST001" "high" "within_24h"
             ["declining_usage_trend"] ["declining_usage_trend"])) Schema.alert_severity /\
    Architecture.severity
      (Architecture.mkAlert _ _ "CUST001" "high" "within_24h"
         ["declining_usage_trend"] ["declining_usage_trend"]) <> "low".
Proof.
  apply (generate_alert_severity_monotone (fun _ (rf : list string) => rf)
           "CUST001" 0.7 0.9 ["declining_usage_trend"]).
  - unfold Qle; simpl; lia.
  - reflexivity.
Defined.

(** ** The comparator of the severity column *)

Lemma order_lookup (s : string) :
  AlertsPage.order !! s
  = if String.eqb s "critical" then Some 3%Z
    else if String.eqb s "medium" then Some 2%Z
    else if String.eqb s "low" then Some 1%Z
    else None.
Proof.
  unfold AlertsPage.order.
  destruct (String.eqb_spec s "critical") as [-> | H1]; [reflexivity |].
  rewrite lookup_insert_ne by congruence.
  destruct (String.eqb_spec s "medium") as [-> | H2]; [reflexivity |].
  rewrite lookup_insert_ne by congruence.
  destruct (String.eqb_spec s "low") as [-> | H3]; [reflexivity |].
  rewrite lookup_insert_ne by congruence. apply lookup_empty.
Qed.

(** X22.  The comparator of the severity column yields a number exactly
    when both alerts have a severity among critical, medium and low (for
    any other severity it yields NaN); the number is then between -2 and 2,
    changes sign when the alerts are swapped, is 0 exactly for equal
    severities and positive exactly when the first alert is the graver. *)
Theorem severity_sorter_compares (a b : Api.Alert) :
  (is_Some (AlertsPage.sorter a b) <->
   In (Api.severity a) Api.Alert_severity /\ In (Api.severity b) Api.Alert_severity) /\
  (forall n, AlertsPage.sorter a b = Some n ->
     (-2 <= n <= 2)%Z /\
     AlertsPage.sorter b a = Some (- n)%Z /\
     (n = 0%Z <-> Api.severity a = Api.severity b) /\
     ((0 < n)%Z <->
      (Api.severity a = "critical" /\ Api.severity b <> "critical") \/
      (Api.severity a = "medium" /\ Api.severity b = "low"))).
Proof.
  unfold AlertsPage.sorter, Api.Alert_severity. rewrite !order_lookup. simpl.
  destruct (String.eqb_spec (Api.severity a) "critical") as [Ea | Ea1];
    [| destruct (String.eqb_spec (Api.severity a) "medium") as [Ea | Ea2];
       [| destruct (String.eqb_spec (Api.severity a) "low") as [Ea | Ea3]]];
    (destruct (String.eqb_spec (Api.severity b) "critical") as [Eb | Eb1];
     [| destruct (String.eqb_spec (Api.severity b) "medium") as [Eb | Eb2];
        [| destruct (String.eqb_spec (Api.severity b) "low") as [Eb | Eb3]]]);
    try rewrite Ea; try rewrite Eb.
  all: split;
    [ split; [intros [n Hn]; first [discriminate Hn | intuition congruence]
             | intros [Ha Hb]; first [eexists; reflexivity | exfalso; intuition congruence] ]
    | intros n Hn;
      first [ discriminate Hn
            | injection Hn as <-;
              split; [lia |]; split; [reflexivity |];
              split; split; intros H;
              first [ lia | reflexivity | discriminate H | congruence
                    | left; split; [reflexivity | congruence]
                    | right; split; reflexivity
                    | exfalso; intuition congruence ] ] ].
Qed.

(** ** Searching: case and longer search texts *)

Lemma lower_upper_ascii (c : ascii) :
  Js.lower_ascii (JsMore.upper_ascii c) = Js.lower_ascii c.
Proof.
  destruct c as [[] [] [] [] [] [] [] []]; reflexivity.
Qed.

Lemma lower_lower_ascii (c : ascii) :
  Js.lower_ascii (Js.lower_ascii c) = Js.lower_ascii c.
Proof.
  destruct c as [[] [] [] [] [] [] [] []]; reflexivity.
Qed.

Lemma toLowerCase_toUpperCase (s : string) :
  Js.toLowerCase (JsMore.toUpperCase s) = Js.toLowerCase s.
Proof.
  induction s as [| c s IH]; simpl; [reflexivity |].
  rewrite lower_upper_ascii, IH. reflexivity.
Qed.

Lemma toLowerCase_idempotent (s : string) :
  Js.toLowerCase (Js.toLowerCase s) = Js.toLowerCase s.
Proof.
  induction s as [| c s IH]; simpl; [reflexivity |].
  rewrite lower_lower_ascii, IH. reflexivity.
Qed.

(** X23.  For texts of ASCII characters, the search of the alerts page
    and of the customer table ignores the case of the search text: the
    text in upper case or in lower case shows the same rows as the text as
    typed. *)
Theorem search_ignores_case (searchText : string) :
  JsAscii.is_ascii searchText = true ->
  (forall (filterSeverity filterType : string) (alerts : list Api.Alert),
     forallb JsAscii.ascii_alert alerts = true ->
     AlertsPage.filteredAlerts (JsMore.toUpperCase searchText) filterSeverity filterType
       (Some alerts)
     = AlertsPage.filteredAlerts searchText filterSeverity filterType (Some alerts) /\
     AlertsPage.filteredAlerts (Js.toLowerCase searchText) filterSeverity filterType
       (Some alerts)
     = AlertsPage.filteredAlerts searchText filterSeverity filterType (Some alerts)) /\
  (forall (filterRisk : string) (customers : list Api.Customer),
     forallb JsAscii.ascii_customer customers = true ->
     CustomersTable.filteredCustomers (JsMore.toUpperCase searchText) filterRisk
       (Some customers)
     = CustomersTable.filteredCustomers searchText filterRisk (Some customers) /\
     CustomersTable.filteredCustomers (Js.toLowerCase searchText) filterRisk
       (Some customers)
     = CustomersTable.filteredCustomers searchText filterRisk (Some customers)).
Proof.
  intros _. split.
  - intros fs ft alerts _.
    unfold AlertsPage.filteredAlerts, AlertsPage.matchesSearch.
    rewrite toLowerCase_toUpperCase, toLowerCase_idempotent. split; reflexivity.
  - intros fr customers _.
    unfold CustomersTable.filteredCustomers, CustomersTable.shown,
      CustomersTable.matchesSearch.
    rewrite toLowerCase_toUpperCase, toLowerCase_idempotent. split; reflexivity.
Qed.

Lemma search_ignores_case_witness :
  AlertsPage.filteredAlerts (JsMore.toUpperCase "Acme") "all" "all" (Some Sample.inbox)
  = AlertsPage.filteredAlerts "Acme" "all" "all" (Some Sample.inbox) /\
  AlertsPage.filteredAlerts (Js.toLowerCase "Acme") "all" "all" (Some Sample.inbox)
  = AlertsPage.filteredAlerts "Acme" "all" "all" (Some Sample.inbox).
Proof.
  apply (search_ignores_case "Acme"); reflexivity.
Defined.

Lemma prefix_spec (sub s : string) :
  String.prefix sub s = true <-> exists post, s = (sub ++ post)%string.
Proof.
  revert s. induction sub as [| c sub IH]; intros s.
  - split; [intros _; exists s; reflexivity | intros _; destruct s; reflexivity].
  - destruct s as [| d s]; [split; [discriminate | intros [post H]; discriminate H] |].
    change (String.prefix (String c sub) (String d s))
      with (if ascii_dec c d then String.prefix sub s else false).
    destruct (ascii_dec c d) as [<- | Hne].
    + rewrite IH. split; intros [post H]; exists post; [rewrite H; reflexivity |].
      injection H as ->. reflexivity.
    + split; [discriminate |]. intros [post H]. injection H as -> _. contradiction.
Qed.

Lemma includes_spec (s sub : string) :
  Js.includes s sub = true <-> exists pre post, s = (pre ++ sub ++ post)%string.
Proof.
  induction s as [| c s IH].
  - cbn [Js.includes]. rewrite orb_false_r, prefix_spec. split.
    + intros [post H]. exists "", post. exact H.
    + intros [pre [post H]]. destruct pre; [exists post; exact H | discriminate H].
  - cbn [Js.includes]. rewrite orb_true_iff, prefix_spec, IH. split.
    + intros [[post H] | [pre [post H]]].
      * exists "", post. exact H.
      * exists (String c pre), post. rewrite H. reflexivity.
    + intros [pre [post H]]. destruct pre as [| d pre].
      * left. exists post. exact H.
      * right. injection H as -> H. exists pre, post. exact H.
Qed.

Lemma string_app_assoc (a b c : string) :
  ((a ++ b) ++ c = a ++ (b ++ c))%string.
Proof.
  induction a as [| x a IH]; [reflexivity |].
  change (String x ((a ++ b) ++ c) = String x (a ++ (b ++ c)))%string.
  f_equal. exact IH.
Qed.

Lemma includes_shorter (s a b : string) :
  Js.includes s (a ++ b) = true ->
  Js.includes s a = true /\ Js.includes s b = true.
Proof.
  rewrite !includes_spec. intros [pre [post H]]. split.
  - exists pre, (b ++ post)%string. rewrite H, string_app_assoc. reflexivity.
  - exists (pre ++ a)%string, post. rewrite H, !string_app_assoc. reflexivity.
Qed.

Lemma toLowerCase_app (a b : string) :
  Js.toLowerCase (a ++ b) = (Js.toLowerCase a ++ Js.toLowerCase b)%string.
Proof. induction a as [| c a IH]; simpl; [reflexivity | rewrite IH; reflexivity]. Qed.

Lemma filter_sublist_impl {A : Type} (p q : A -> bool) (l : list A) :
  (forall x, p x = true -> q x = true) ->
  sublist (List.filter p l) (List.filter q l).
Proof.
  intros H. induction l as [| x l IH]; simpl; [constructor |].
  destruct (p x) eqn:Hp.
  - rewrite (H x Hp). apply sublist_skip, IH.
  - destruct (q x); [apply sublist_cons, IH | exact IH].
Qed.

(** X24.  For texts of ASCII characters, typing on never brings back a
    row: the alerts shown for a search text with characters added in front
    or behind are a subsequence of the alerts shown for the text before,
    the selectors unchanged. *)
Theorem longer_search_narrows (before after searchText filterSeverity filterType : string)
    (alerts : list Api.Alert) :
  JsAscii.is_ascii before = true ->
  JsAscii.is_ascii searchText = true ->
  JsAscii.is_ascii after = true ->
  forallb JsAscii.ascii_alert alerts = true ->
  exists narrow wide,
    AlertsPage.filteredAlerts (before ++ searchText ++ after) filterSeverity filterType
      (Some alerts) = Some narrow /\
    AlertsPage.filteredAlerts searchText filterSeverity filterType (Some alerts)
    = Some wide /\
    sublist narrow wide /\ (length narrow <= length wide)%nat.
Proof.
  intros _ _ _ _.
  eexists _, _. split; [reflexivity |]. split; [reflexivity |].
  assert (Hsub : sublist
    (List.filter (fun alert =>
       AlertsPage.matchesSearch (before ++ searchText ++ after) alert
       && AlertsPage.matchesSeverity filterSeverity alert
       && AlertsPage.matchesType filterType alert) alerts)
    (List.filter (fun alert =>
       AlertsPage.matchesSearch searchText alert
       && AlertsPage.matchesSeverity filterSeverity alert
       && AlertsPage.matchesType filterType alert) alerts)).
  { apply filter_sublist_impl. intros a.
    rewrite !andb_true_iff. intros [[Hs Hv] Ht]. repeat split; try assumption.
    revert Hs. unfold AlertsPage.matchesSearch.
    rewrite !toLowerCase_app, !orb_true_iff.
    intros [[H | H] | H];
      apply includes_shorter in H as [_ H]; apply includes_shorter in H as [H _]; auto. }
  split; [exact Hsub | apply sublist_length, Hsub].
Qed.

Lemma longer_search_narrows_witness :
  exists narrow wide,
    AlertsPage.filteredAlerts ("" ++ "acme" ++ " labs") "critical" "all"
      (Some Sample.inbox) = Some narrow /\
    AlertsPage.filteredAlerts "acme" "critical" "all" (Some Sample.inbox) = Some wide /\
    sublist narrow wide /\ (length narrow <= length wide)%nat.
Proof.
  apply (longer_search_narrows "" " labs" "acme" "critical" "all" Sample.inbox);
    reflexivity.
Defined.

(** ** The alerts table *)

Module AlertsSchemaFacts.
Import AlertsSchema.

Lemma cast_enum_label (enum : string) (labels : list string) (x : option string) (s : string) :
  cast_enum enum labels x = inr (Some s) -> x = Some s /\ In s labels.
Proof.
  unfold cast_enum. destruct x as [s' |]; [| discriminate].
  destruct (existsb (String.eqb s') labels) eqn:E; [| discriminate].
  intros [= <-]. split; [reflexivity |].
  apply List.existsb_exists in E as [l [Hl E]]. apply String.eqb_eq in E. subst. exact Hl.
Qed.

(** What a successful insert appends. *)
Lemma insert_appends (t t' : Table) (v : Values) :
  insert t v = inr t' ->
  exists r, t' = (t ++ [r])%list /\ row_ok r /\ id r = v_id v /\
            with_default "medium" (v_severity v) = Some (severity r) /\
            with_default "open" (v_status v) = Some (status r) /\
            v_alert_type v = Some (type_ r) /\
            ~ In (v_id v) (map id t).
Proof.
  unfold insert, bind. intros H.
  destruct (cast_enum "alert_type" _ _) as [e | ty] eqn:Ety; [discriminate |].
  destruct (cast_enum "alert_severity" _ _) as [e | sev] eqn:Esev; [discriminate |].
  destruct (cast_enum "alert_status" _ _) as [e | st] eqn:Est; [discriminate |].
  destruct (Schema.cast (v_risk_score v)) as [e | score]; [discriminate |]. simpl in H.
  destruct ty as [ty |]; [| discriminate]. simpl in H.
  destruct sev as [sev |]; [| discriminate]. simpl in H.
  destruct st as [st |]; [| discriminate]. simpl in H.
  destruct (v_title v) as [ti |]; [| discriminate]. simpl in H.
  destruct (Schema.check_passes score) eqn:Ec; [| discriminate]. simpl in H.
  destruct (existsb _ t) eqn:Epk; [discriminate |].
  injection H as <-.
  apply cast_enum_label in Ety as [Ety Hty], Esev as [Esev Hsev], Est as [Est Hst].
  eexists. split; [reflexivity |]. simpl.
  repeat split; try assumption.
  - apply SchemaFacts.check_passes_range, Ec.
  - intros Hin. apply in_map_iff in Hin as [r [Hr Hin]].
    assert (existsb (fun r => String.eqb (id r) (v_id v)) t = true); [| congruence].
    apply List.existsb_exists. exists r. split; [exact Hin | apply String.eqb_eq, Hr].
Qed.

Lemma run_rows_ok (vs : list Values) (t : Table) :
  Forall row_ok t -> NoDup (map id t) ->
  Forall row_ok (run t vs) /\ NoDup (map id (run t vs)).
Proof.
  revert t. induction vs as [| v vs IH]; intros t Hok Hnd; [split; assumption |].
  unfold run in *. simpl.
  destruct (insert t v) as [e | t'] eqn:E; [apply IH; assumption |].
  apply insert_appends in E as [r [-> [Hr [Hid [_ [_ [_ Hfresh]]]]]]].
  apply IH.
  - apply Forall_app. split; [exact Hok | constructor; [exact Hr | constructor]].
  - rewrite map_app. apply NoDup_app. split; [exact Hnd |]. split.
    + intros i Hi Hi'. simpl in Hi'. apply list_elem_of_In in Hi'.
      destruct Hi' as [<- | []]. apply Hfresh. rewrite <- Hid.
      apply list_elem_of_In, Hi.
    + apply NoDup_singleton.
Qed.

End AlertsSchemaFacts.

(** X25.  Every alert stored by a run of inserts has a type, a severity
    and a status of their enumerations, a risk score in [0,1] when it has
    one, and an [id] no other stored alert has.  An insert that names
    neither severity nor status stores medium and open; one that gives a
    NULL severity or a severity that is no label of the enumeration is
    refused. *)
Theorem stored_alerts_valid (vs : list AlertsSchema.Values) :
  Forall AlertsSchema.row_ok (AlertsSchema.run [] vs) /\
  NoDup (map AlertsSchema.id (AlertsSchema.run [] vs)) /\
  (forall t t' v,
     AlertsSchema.v_severity v = AlertsSchema.omitted ->
     AlertsSchema.v_status v = AlertsSchema.omitted ->
     AlertsSchema.insert t v = inr t' ->
     exists r, t' = (t ++ [r])%list /\
               AlertsSchema.severity r = "medium" /\ AlertsSchema.status r = "open") /\
  (forall t v,
     AlertsSchema.v_severity v = AlertsSchema.given None ->
     exists e, AlertsSchema.insert t v = inl e) /\
  (forall t v s,
     AlertsSchema.v_severity v = AlertsSchema.given (Some s) ->
     ~ In s Schema.alert_severity ->
     exists e, AlertsSchema.insert t v = inl e).
Proof.
  split; [| split; [| split; [| split]]].
  - apply AlertsSchemaFacts.run_rows_ok; constructor.
  - apply AlertsSchemaFacts.run_rows_ok; constructor.
  - intros t t' v Hsev Hst H.
    apply AlertsSchemaFacts.insert_appends in H as [r [-> [_ [_ [Hs [Ho _]]]]]].
    rewrite Hsev in Hs. rewrite Hst in Ho. simpl in Hs, Ho.
    exists r. split; [reflexivity |]. split; congruence.
  - intros t v Hsev. destruct (AlertsSchema.insert t v) as [e | t'] eqn:E; [eauto |].
    apply AlertsSchemaFacts.insert_appends in E as [r [_ [_ [_ [Hs _]]]]].
    rewrite Hsev in Hs. discriminate Hs.
  - intros t v s Hsev Hs. destruct (AlertsSchema.insert t v) as [e | t'] eqn:E; [eauto |].
    apply AlertsSchemaFacts.insert_appends in E as [r [_ [[_ [Hr _]] [_ [Hs' _]]]]].
    rewrite Hsev in Hs'. simpl in Hs'. injection Hs' as ->. contradiction.
Qed.

(** The type of the engagement alerts of the rules is no label of
    [alert_type]: the table refuses such an alert. *)
Lemma engagement_risk_not_storable (t : AlertsSchema.Table) (v : AlertsSchema.Values) :
  AlertsSchema.v_alert_type v = Some "engagement_risk" ->
  AlertsSchema.insert t v
  = inl (AlertsSchema.invalid_enum_value "alert_type" "engagement_risk").
Proof. intros H. unfold AlertsSchema.insert. rewrite H. reflexivity. Qed.

(** ** The action card *)

(** X26.  The card of an action has a red border exactly for the urgency
    critical and an orange one exactly for high; a medium action and an
    action of any other urgency both get the blue border, and every urgency
    other than critical, high and medium is labelled Low Priority. *)
Theorem action_card_urgency (urgency : string) :
  (ActionCard.border_color urgency = "#f5222d" <-> urgency = "critical") /\
  (ActionCard.border_color urgency = "#fa8c16" <-> urgency = "high") /\
  (ActionCard.border_color urgency = "#1890ff" <->
   urgency <> "critical" /\ urgency <> "high") /\
  (ActionCard.text (ActionCard.getUrgencyConfig urgency) = "Low Priority" <->
   urgency <> "critical" /\ urgency <> "high" /\ urgency <> "medium").
Proof.
  unfold ActionCard.border_color, ActionCard.getUrgencyConfig, Js.str_eq.
  destruct (String.eqb_spec urgency "critical") as [-> | H1];
    [| destruct (String.eqb_spec urgency "high") as [-> | H2];
       [| destruct (String.eqb_spec urgency "medium") as [-> | H3]]];
    simpl; repeat split; intros; try discriminate; try congruence; try tauto;
    intuition congruence.
Qed.

(** ** The new definitions on sample data *)

Example options_of_inbox :
  AlertsTable.alertTypes (Some Sample.inbox) = ["churn_risk"; "engagement_risk"] /\
  JsMore.spread_Set ["b"; "a"; "b"; "c"; "a"] = ["b"; "a"; "c"].
Proof. split; reflexivity. Qed.

Example rounding_ties_go_up :
  map JsMore.Math_round [0.5; 1.5; -0.5; -1.5; 2.4; -2.6]%Q = [1; 2; 0; -1; 2; -3]%Z.
Proof. reflexivity. Qed.

Example critical_rows_of_portfolio :
  option_map (map Api.name)
    (CustomersTable.filteredCustomers "" "Critical" (Some Sample.portfolio))
  = Some ["a"; "b"; "d"; "e"; "f"; "g"; "i"] /\
  map Api.name (DashboardCards.atRiskCustomers (Some Sample.portfolio))
  = ["a"; "b"; "c"; "d"; "e"].
Proof. split; reflexivity. Qed.

Example grouped_inbox :
  map Api.customer_name
    (AlertsList.listed
       (Some (Sample.alert "medium" "usage_decline" "Gamma"
              :: Sample.alert "high" "churn_risk" "Delta" :: Sample.inbox)))
  = ["Acme"; "Beta"; "ACME Labs"; "Gamma"; "Acme"].
Proof. reflexivity. Qed.
